(** * ThinkTwice: the analysis client of the React front end

    A shallow embedding of [frontend/src/App.js]: the [analyzeText] callback
    of the [App] component, the React state it writes, the abort-controller
    ref it keeps, the requests it hands to axios, and the part of the
    rendered page that shows the outcome.  The thresholding done by the
    analysis endpoint is modelled separately (module [Backend]). *)

From Stdlib Require Import List Bool Arith NArith QArith String Ascii Lia.
From Stdlib Require Import Lqa.
Import ListNotations.

Close Scope Q_scope.
Open Scope list_scope.

(** ** JavaScript strings

    A JavaScript string is a sequence of UTF-16 code units; [length], [slice]
    and [trim] all count and inspect code units. *)

Module JsString.

Definition t := list N.

(** A literal with ASCII characters only. *)
Definition str (s : string) : t :=
  map N_of_ascii (list_ascii_of_string s).

Fixpoint eqb (a b : t) : bool :=
  match a, b with
  | [], [] => true
  | x :: a', y :: b' => N.eqb x y && eqb a' b'
  | _, _ => false
  end.

(** [WhiteSpace] and [LineTerminator] of ECMAScript: what [trim] strips. *)
Definition isWhiteSpace (c : N) : bool :=
  ((c =? 0x9) || (c =? 0xA) || (c =? 0xB) || (c =? 0xC) || (c =? 0xD)
   || (c =? 0x20) || (c =? 0xA0) || (c =? 0x1680)
   || ((0x2000 <=? c) && (c <=? 0x200A))
   || (c =? 0x2028) || (c =? 0x2029) || (c =? 0x202F) || (c =? 0x205F)
   || (c =? 0x3000) || (c =? 0xFEFF))%N.

Fixpoint trimStart (s : t) : t :=
  match s with
  | c :: s' => if isWhiteSpace c then trimStart s' else s
  | [] => []
  end.

Definition trimEnd (s : t) : t := rev (trimStart (rev s)).

Definition trim (s : t) : t := trimEnd (trimStart s).

(** [s.slice(0, n)]. *)
Definition slice0 (n : nat) (s : t) : t := firstn n s.

(** Truthiness of a string: only the empty one is falsy. *)
Definition truthy (s : t) : bool :=
  match s with [] => false | _ :: _ => true end.

End JsString.

Abbreviation jsstring := JsString.t.
Abbreviation str := JsString.str.

(** ** Messages of the analysis endpoint

    [POST /api/analyze-text] takes a JSON object and answers with one.  The
    scores are JavaScript numbers; they are modelled as rationals, which
    keeps the order the code compares them by.  An object is the list of
    its fields in the order they were written. *)

Inductive json : Type :=
| JNull
| JBool (b : bool)
| JNum (q : Q)
| JStr (s : jsstring).

Definition object := list (jsstring * json).

(** [response.data].  The three fields are those of the endpoint's contract;
    [other_fields] is whatever else the server put in the object. *)
Module Api.

Record AnalysisData : Type := mkData {
  regret_score : Q;
  should_warn : bool;
  analysis : list (jsstring * Q);
  other_fields : object
}.

End Api.

(** ** axios, as the component uses it *)

Module Axios.

(** An [AbortController] is known by the order of its construction; its
    [signal] is named the same way. *)
Definition AbortController := nat.

Record Config : Type := mkConfig {
  signal : AbortController;
  timeout : N
}.

Record Request : Type := mkRequest {
  url : jsstring;
  data : object;
  config : Config
}.

Record Error : Type := mkError {
  name : jsstring;
  message : jsstring
}.

(** What the promise of a request rejects with when its signal fires.  The
    abort listener axios installs on [config.signal] rejects with a
    [CanceledError]: name "CanceledError", message "canceled", code
    "ERR_CANCELED" (what [axios.isCancel] recognises).  The name "AbortError"
    belongs to [fetch], which the component does not use. *)
Definition CanceledError : Error :=
  {| name := str "CanceledError"; message := str "canceled" |}.

(** The two failures the component's 10 second budget and the network give. *)
Definition NetworkError : Error :=
  {| name := str "AxiosError"; message := str "Network Error" |}.

Definition TimeoutError : Error :=
  {| name := str "AxiosError"; message := str "timeout of 10000ms exceeded" |}.

Inductive Outcome : Type :=
| Resolved (response_data : Api.AnalysisData)
| Rejected (error : Error).

End Axios.

Import Axios.

(** ** The [App] component *)

Record SimulatedApp : Type := mkApp {
  app_name : jsstring;
  placeholder : jsstring
}.

Definition SIMULATED_APPS : list SimulatedApp :=
  [ mkApp (str "Email") (str "Write your email here...");
    mkApp (str "Chat") (str "Type your message...");
    mkApp (str "Social Media") (str "What's on your mind?");
    mkApp (str "Comments") (str "Add a comment...");
    mkApp (str "Review") (str "Write a review...") ].

Record LogEntry : Type := mkLog {
  timestamp : jsstring;
  app : jsstring;
  text : jsstring;
  regretScore : Q;
  warned : bool
}.

(** The dependencies of [useCallback]: the values of the render in which a
    given [analyzeText] was created. *)
Record Closure : Type := mkClosure {
  selectedApp : SimulatedApp;
  isMonitoring : bool
}.

(** An invocation of [analyzeText] suspended at its [await]: the request it
    waits for and the variables it resumes with. *)
Record Suspended : Type := mkSuspended {
  request : Request;
  closure : Closure;
  textToAnalyze : jsstring
}.

(** The state [analyzeText] reads and writes: the React state variables, the
    ref, and the world outside the component (the controllers constructed so
    far and the signals that fired, the analysis requests axios is waiting
    on, every analysis request it ever sent, the promise reactions queued to
    run, the clock). *)
Record State : Type := mkState {
  analysis : option Api.AnalysisData;
  loading : bool;
  showWarning : bool;
  monitoringLogs : list LogEntry;
  error : option jsstring;
  abortControllerRef : option AbortController;
  controllers : nat;
  aborted : list AbortController;
  in_flight : list Suspended;
  sent : list Request;
  jobs : list (Suspended * Outcome);
  clock : jsstring
}.

(** The first render: [useState] and [useRef] initial values, nothing sent. *)
Definition initial : State :=
  {| analysis := None; loading := false; showWarning := false;
     monitoringLogs := []; error := None; abortControllerRef := None;
     controllers := 0; aborted := []; in_flight := []; sent := [];
     jobs := []; clock := [] |}.

(** *** A state monad for the component's effects *)

Definition M (A : Type) : Type := State -> A * State.

Definition ret {A} (a : A) : M A := fun st => (a, st).

Definition bind {A B} (c : M A) (k : A -> M B) : M B :=
  fun st => let (a, st') := c st in k a st'.

Definition exec {A} (c : M A) (st : State) : State := snd (c st).

Declare Scope js_scope.
Delimit Scope js_scope with js.
Notation "x <- c ;; k" := (bind c (fun x => k))
  (at level 61, c at next level, right associativity) : js_scope.
Notation "c ;; k" := (bind c (fun _ => k))
  (at level 61, right associativity) : js_scope.
Open Scope js_scope.

Definition setAnalysis (v : option Api.AnalysisData) : M unit := fun st =>
  (tt, mkState v (loading st) (showWarning st) (monitoringLogs st) (error st)
         (abortControllerRef st) (controllers st) (aborted st) (in_flight st)
         (sent st) (jobs st) (clock st)).

Definition setLoading (v : bool) : M unit := fun st =>
  (tt, mkState (analysis st) v (showWarning st) (monitoringLogs st) (error st)
         (abortControllerRef st) (controllers st) (aborted st) (in_flight st)
         (sent st) (jobs st) (clock st)).

Definition setShowWarning (v : bool) : M unit := fun st =>
  (tt, mkState (analysis st) (loading st) v (monitoringLogs st) (error st)
         (abortControllerRef st) (controllers st) (aborted st) (in_flight st)
         (sent st) (jobs st) (clock st)).

(** The functional form, [setMonitoringLogs(prev => ...)]. *)
Definition setMonitoringLogs (f : list LogEntry -> list LogEntry) : M unit :=
  fun st =>
  (tt, mkState (analysis st) (loading st) (showWarning st)
         (f (monitoringLogs st)) (error st)
         (abortControllerRef st) (controllers st) (aborted st) (in_flight st)
         (sent st) (jobs st) (clock st)).

Definition setError (v : option jsstring) : M unit := fun st =>
  (tt, mkState (analysis st) (loading st) (showWarning st) (monitoringLogs st) v
         (abortControllerRef st) (controllers st) (aborted st) (in_flight st)
         (sent st) (jobs st) (clock st)).

(** [abortControllerRef.current] read and written. *)
Definition current : M (option AbortController) := fun st =>
  (abortControllerRef st, st).

Definition setCurrent (v : option AbortController) : M unit := fun st =>
  (tt, mkState (analysis st) (loading st) (showWarning st) (monitoringLogs st)
         (error st) v (controllers st) (aborted st) (in_flight st)
         (sent st) (jobs st) (clock st)).

(** [new AbortController()]. *)
Definition newAbortController : M AbortController := fun st =>
  (controllers st,
   mkState (analysis st) (loading st) (showWarning st) (monitoringLogs st)
     (error st) (abortControllerRef st) (S (controllers st)) (aborted st)
     (in_flight st) (sent st) (jobs st) (clock st)).

Definition waits_on (c : AbortController) (f : Suspended) : bool :=
  Nat.eqb (signal (config (request f))) c.

(** [controller.abort()]: the signal fires; axios drops every request that
    listens to it and rejects its promise, so the invocation waiting on it is
    queued to resume with the rejection.  Nothing happens to a request that
    has completed already. *)
Definition abort (c : AbortController) : M unit := fun st =>
  let hit := filter (waits_on c) (in_flight st) in
  let rest := filter (fun f => negb (waits_on c f)) (in_flight st) in
  (tt, mkState (analysis st) (loading st) (showWarning st) (monitoringLogs st)
         (error st) (abortControllerRef st) (controllers st) (c :: aborted st)
         rest (sent st)
         (jobs st ++ map (fun f => (f, Rejected CanceledError)) hit)
         (clock st)).

(** [axios.post(url, data, config)] up to the point where the caller awaits:
    the request goes out and the caller is suspended on it. *)
Definition post (cl : Closure) (txt : jsstring) (r : Request) : M unit :=
  fun st =>
  (tt, mkState (analysis st) (loading st) (showWarning st) (monitoringLogs st)
         (error st) (abortControllerRef st) (controllers st) (aborted st)
         (in_flight st ++ [mkSuspended r cl txt]) (sent st ++ [r])
         (jobs st) (clock st)).

(** [new Date().toLocaleTimeString()]. *)
Definition toLocaleTimeString : M jsstring := fun st => (clock st, st).

Section Component.

(** [process.env.REACT_APP_BACKEND_URL], fixed when the bundle is built. *)
Variable REACT_APP_BACKEND_URL : option jsstring.

Definition API_BASE_URL : jsstring :=
  match REACT_APP_BACKEND_URL with
  | Some u => if JsString.truthy u then u else str "http://localhost:8001"
  | None => str "http://localhost:8001"
  end.

(** The body of the analysis request, [{text, threshold}]. *)
Definition analyze_body (textToAnalyze : jsstring) (currentThreshold : Q)
  : object :=
  [ (str "text", JStr textToAnalyze);
    (str "threshold", JNum currentThreshold) ].

Definition analyze_request (textToAnalyze : jsstring) (currentThreshold : Q)
    (c : AbortController) : Request :=
  {| url := API_BASE_URL ++ str "/api/analyze-text";
     data := analyze_body textToAnalyze currentThreshold;
     config := {| signal := c; timeout := 10000 |} |}.

(** The text a log entry keeps. *)
Definition truncated (textToAnalyze : jsstring) : jsstring :=
  JsString.slice0 50 textToAnalyze
  ++ (if Nat.ltb 50 (List.length textToAnalyze) then str "..." else []).

(** "Cancel previous request if still pending": the first statement of
    [analyzeText] after the guard on blank input. *)
Definition cancelPrevious : M unit :=
  prev <- current ;;
  match prev with
  | Some c => abort c
  | None => ret tt
  end.

(** [analyzeText], from its call to its [await]. *)
Definition analyzeText (cl : Closure) (textToAnalyze : jsstring)
    (currentThreshold : Q) : M unit :=
  if negb (JsString.truthy (JsString.trim textToAnalyze)) then
    setAnalysis None ;;
    setShowWarning false ;;
    setError None
  else
    cancelPrevious ;;
    (* Create new abort controller *)
    c <- newAbortController ;;
    setCurrent (Some c) ;;
    setLoading true ;;
    setError None ;;
    post cl textToAnalyze (analyze_request textToAnalyze currentThreshold c).

(** [analyzeText], from the settling of the awaited promise to its end: the
    rest of the [try] block, or the [catch] block, and then [finally]. *)
Definition analyzeText_resume (f : Suspended) (o : Outcome) : M unit :=
  match o with
  | Resolved response_data =>
      setAnalysis (Some response_data) ;;
      setShowWarning (Api.should_warn response_data) ;;
      (* Add to monitoring logs *)
      (if isMonitoring (closure f) then
         now <- toLocaleTimeString ;;
         let logEntry :=
           {| timestamp := now;
              app := app_name (selectedApp (closure f));
              text := truncated (textToAnalyze f);
              regretScore := Api.regret_score response_data;
              warned := Api.should_warn response_data |} in
         setMonitoringLogs (fun prev => logEntry :: firstn 9 prev)
       else ret tt) ;;
      setLoading false
  | Rejected error =>
      if JsString.eqb (name error) (str "AbortError") then
        (* Request was cancelled, ignore *)
        setLoading false
      else
        setError (Some (str "Analysis failed: " ++ message error)) ;;
        setAnalysis None ;;
        setShowWarning false ;;
        setLoading false
  end.

(** [testConnection], from its call to its [await] of the health check
    (a GET that is no analysis request and is not recorded in [sent]). *)
Definition testConnection : M unit := setLoading true.

(** [testConnection], from the settling of the health check to its end;
    [failure] is the error it was rejected with, if it was. *)
Definition testConnection_resume (failure : option Error) : M unit :=
  match failure with
  | None => setError None ;; setLoading false
  | Some error =>
      setError (Some (str "Connection failed: " ++ message error)) ;;
      setLoading false
  end.

(** *** The event loop

    What can happen to the state above between two renders: the debounce
    timer fires and calls [analyzeText] (with the text and threshold of the
    render that armed it, which the model leaves free); the network settles
    an analysis request that is still awaited; the mount effect or the Retry
    button calls [testConnection], and the health check settles; the clock
    moves. *)
Inductive Event : Type :=
| Call (cl : Closure) (textToAnalyze : jsstring) (currentThreshold : Q)
| Settle (c : AbortController) (o : Outcome)
| Connect
| Connected (failure : option Error)
| Tick (now : jsstring).

Definition setClock (now : jsstring) : M unit := fun st =>
  (tt, mkState (analysis st) (loading st) (showWarning st) (monitoringLogs st)
         (error st) (abortControllerRef st) (controllers st) (aborted st)
         (in_flight st) (sent st) (jobs st) now).

Definition takeJobs : M (list (Suspended * Outcome)) := fun st =>
  (jobs st,
   mkState (analysis st) (loading st) (showWarning st) (monitoringLogs st)
     (error st) (abortControllerRef st) (controllers st) (aborted st)
     (in_flight st) (sent st) [] (clock st)).

Fixpoint resumeAll (js : list (Suspended * Outcome)) : M unit :=
  match js with
  | [] => ret tt
  | (f, o) :: js' => analyzeText_resume f o ;; resumeAll js'
  end.

(** The promise reactions queued by the running code run as soon as it
    returns. *)
Definition runJobs : M unit := js <- takeJobs ;; resumeAll js.

(** The invocations waiting on signal [c] leave the network's hands. *)
Definition complete (c : AbortController) : M (list Suspended) := fun st =>
  (filter (waits_on c) (in_flight st),
   mkState (analysis st) (loading st) (showWarning st) (monitoringLogs st)
     (error st) (abortControllerRef st) (controllers st) (aborted st)
     (filter (fun f => negb (waits_on c f)) (in_flight st)) (sent st)
     (jobs st) (clock st)).

Definition step (e : Event) : M unit :=
  match e with
  | Call cl textToAnalyze currentThreshold =>
      analyzeText cl textToAnalyze currentThreshold ;; runJobs
  | Settle c o =>
      fs <- complete c ;;
      resumeAll (map (fun f => (f, o)) fs) ;; runJobs
  | Connect => testConnection ;; runJobs
  | Connected failure => testConnection_resume failure ;; runJobs
  | Tick now => setClock now
  end.

Fixpoint run (es : list Event) (st : State) : State :=
  match es with
  | [] => st
  | e :: es' => run es' (exec (step e) st)
  end.

End Component.

(** *** What the page shows of the analysis

    The parts of [App]'s returned element that depend on the state above.
    Numbers are kept as they are; their formatting ([toFixed], the width of
    a bar) is left out. *)

Definition Qltb (x y : Q) : bool := negb (Qle_bool y x).

Definition getRegretScoreColor (score : Q) : jsstring :=
  if Qltb score (3 # 10) then str "text-green-500"
  else if Qltb score (6 # 10) then str "text-yellow-500"
  else str "text-red-500".

Definition getRegretScoreLabel (score : Q) : jsstring :=
  if Qltb score (2 # 10) then str "Safe"
  else if Qltb score (4 # 10) then str "Caution"
  else if Qltb score (6 # 10) then str "Risky"
  else str "High Risk".

(** [key.replace('_', ' ')]: the first underscore only. *)
Fixpoint replace_underscore (key : jsstring) : jsstring :=
  match key with
  | [] => []
  | c :: key' =>
      if (c =? 0x5F)%N then 0x20%N :: key' else c :: replace_underscore key'
  end.

Record ErrorBanner : Type := mkBanner {
  banner_text : jsstring;
  button_label : jsstring;
  button_onClick : M unit
}.

Record BreakdownRow : Type := mkRow {
  row_label : jsstring;
  row_alert : bool;
  row_bar : jsstring;
  row_value : Q
}.

Record ResultsPanel : Type := mkPanel {
  overall_label : jsstring;
  overall_color : jsstring;
  overall_bar : jsstring;
  overall_score : Q;
  breakdown : list BreakdownRow
}.

Record View : Type := mkView {
  errorBanner : option ErrorBanner;
  warningAlert : bool;
  results : option ResultsPanel;
  monitoringFeed : list (LogEntry * jsstring)
}.

Definition breakdown_row (entry : jsstring * Q) : BreakdownRow :=
  let (key, value) := entry in
  {| row_label := replace_underscore key;
     row_alert := Qltb (6 # 10) value;
     row_bar :=
       if Qltb value (3 # 10) then str "bg-green-400 dark:bg-green-300"
       else if Qltb value (6 # 10) then str "bg-yellow-400 dark:bg-yellow-300"
       else str "bg-red-400 dark:bg-red-300";
     row_value := value |}.

Definition results_panel (a : Api.AnalysisData) : ResultsPanel :=
  {| overall_label := getRegretScoreLabel (Api.regret_score a);
     overall_color := getRegretScoreColor (Api.regret_score a);
     overall_bar :=
       if Qltb (Api.regret_score a) (3 # 10)
       then str "bg-green-500 dark:bg-green-400"
       else if Qltb (Api.regret_score a) (6 # 10)
       then str "bg-yellow-500 dark:bg-yellow-400"
       else str "bg-red-500 dark:bg-red-400";
     overall_score := Api.regret_score a;
     breakdown := map breakdown_row (Api.analysis a) |}.

(** [monitoring] is the [isMonitoring] of the render being produced. *)
Definition render (monitoring : bool) (st : State) : View :=
  {| errorBanner :=
       match error st with
       | Some e =>
           if JsString.truthy e
           then Some (mkBanner e (str "Retry") testConnection)
           else None
       | None => None
       end;
     warningAlert :=
       showWarning st && match analysis st with Some _ => true | None => false end;
     results := option_map results_panel (analysis st);
     monitoringFeed :=
       if monitoring && Nat.ltb 0 (List.length (monitoringLogs st))
       then map (fun log => (log, getRegretScoreColor (regretScore log)))
                (monitoringLogs st)
       else [] |}.

(** ** The analysis endpoint *)

Module Backend.

Section Handler.

(** The pretrained classifier: the regret score of a text and its score in
    each category. *)
Variable classifier : jsstring -> Q * list (jsstring * Q).

(** Modelled from the spec: the handler of [POST /api/analyze-text] (the
    server module the README starts with uvicorn) is not among the sources.
    The spec has it forward the text to the classifier and threshold the
    scalar that comes back: a score below the threshold gives
    [should_warn = false], a score at or above it [should_warn = true]. *)
Definition analyze_text (text : jsstring) (threshold : Q) : Api.AnalysisData :=
  let (score, categories) := classifier text in
  {| Api.regret_score := score;
     Api.should_warn := Qle_bool threshold score;
     Api.analysis := categories;
     Api.other_fields := [] |}.

End Handler.

End Backend.

(** ** Invariants of the event loop *)

(** Between two events no promise reaction is left queued, and a request
    axios still waits on is the only one and listens to the controller the
    ref holds. *)
Definition single_flight (st : State) : Prop :=
  jobs st = [] /\
  forall f, In f (in_flight st) ->
    in_flight st = [f] /\
    abortControllerRef st = Some (signal (config (request f))).

(** Controllers are numbered as they are constructed: a request that is
    awaited listens to one that exists. *)
Definition controllers_counted (st : State) : Prop :=
  forall f, In f (in_flight st) ->
    signal (config (request f)) < controllers st.

(** What [analyzeText_resume] leaves alone: the ref and the world outside. *)
Definition same_world (st st' : State) : Prop :=
  abortControllerRef st' = abortControllerRef st /\
  controllers st' = controllers st /\
  aborted st' = aborted st /\
  in_flight st' = in_flight st /\
  sent st' = sent st /\
  jobs st' = jobs st /\
  clock st' = clock st.

(** The state [analyzeText] returns in when the trimmed text is empty: the
    three setters ran and nothing else did. *)
Definition cleared (st : State) : State :=
  mkState None (loading st) false (monitoringLogs st) None
    (abortControllerRef st) (controllers st) (aborted st) (in_flight st)
    (sent st) (jobs st) (clock st).

(** ** Example inputs *)

Definition email : Closure :=
  {| selectedApp := mkApp (str "Email") (str "Write your email here...");
     isMonitoring := true |}.

Definition risky : Api.AnalysisData :=
  {| Api.regret_score := (7 # 10)%Q;
     Api.should_warn := true;
     Api.analysis := [(str "toxicity", (7 # 10)%Q); (str "insult", (4 # 10)%Q)];
     Api.other_fields := [] |}.

Definition half : Q := (1 # 2)%Q.

(** Two spaces, a tab, a line feed and a no-break space. *)
Definition blanks : jsstring := [0x20; 0x20; 0x9; 0xA; 0xA0]%N.

(** The call [analyzeText("hello", 0.5)] at its [await], as the first call
    of a session leaves it. *)
Definition awaited_hello : Suspended :=
  mkSuspended (analyze_request None (str "hello") half 0) email (str "hello").

(** The user has a result on the page and a second request on its way. *)
Definition typing : list Event :=
  [ Call email (str "you are") half;
    Settle 0 (Resolved risky);
    Call email (str "you are a") half ].

(** The error a [fetch] would reject an aborted request with. *)
Definition fetchAbortError : Error :=
  {| name := str "AbortError"; message := str "The user aborted a request." |}.

(** ** The rest of the component

    The state variables [analyzeText] does not write, the three effects, the
    event handlers of the page and the calls to the other endpoints. *)

(** What [getInitialDarkMode] reads of the browser: the stored item
    'thinktwice-darkmode' ([null] when there is none) and whether the system
    prefers a dark scheme. *)
Record Window : Type := mkWindow {
  getItem_darkmode : option jsstring;
  prefers_dark : bool
}.

(** [window] is [None] where there is no browser. *)
Definition getInitialDarkMode (window : option Window) : bool :=
  match window with
  | Some w =>
      match getItem_darkmode w with
      | Some stored => JsString.eqb stored (str "true")
      | None => prefers_dark w
      end
  | None => false
  end.

(** The string [localStorage.setItem] keeps of a boolean. *)
Definition String_of_boolean (b : bool) : jsstring :=
  if b then str "true" else str "false".

(** [response.data] of [GET /api/analytics]. *)
Record Analytics : Type := mkAnalytics {
  total_analyses : Q;
  warned_analyses : Q;
  warning_rate : Q
}.

Inductive Method : Type := GET | POST.

Record HttpRequest : Type := mkHttp {
  http_method : Method;
  http_url : jsstring;
  http_data : object
}.

(** Two entries of [SIMULATED_APPS] are the same object exactly when they
    hold the same strings: the table has no two entries alike. *)
Definition SimulatedApp_eqb (a b : SimulatedApp) : bool :=
  JsString.eqb (app_name a) (app_name b)
  && JsString.eqb (placeholder a) (placeholder b).

(** [SIMULATED_APPS.find(app => app.name === value)]. *)
Definition find_app (value : jsstring) : option SimulatedApp :=
  find (fun app => JsString.eqb (app_name app) value) SIMULATED_APPS.

Module App.

Record t : Type := mk {
  (** [analysis], [loading], [showWarning], [monitoringLogs], [error],
      [abortControllerRef] and the analysis requests. *)
  core : State;
  text : jsstring;
  threshold : Q;
  userId : jsstring;
  analytics : option Analytics;
  selectedApp : SimulatedApp;
  isMonitoring : bool;
  darkMode : bool;
  settingsOpen : bool;
  (** The timeout armed by the debounce effect: the [analyzeText], [text]
      and [threshold] of the render that armed it. *)
  debounceTimer : option (Closure * jsstring * Q);
  (** The item 'thinktwice-darkmode'. *)
  localStorage : option jsstring;
  (** Whether [document.documentElement] carries the class 'dark'. *)
  htmlDark : bool;
  (** The requests sent to the other three endpoints, oldest first. *)
  requests : list HttpRequest
}.

Definition with_core (v : State) (c : t) : t :=
  mk v (text c) (threshold c) (userId c) (analytics c) (selectedApp c)
    (isMonitoring c) (darkMode c) (settingsOpen c) (debounceTimer c)
    (localStorage c) (htmlDark c) (requests c).

Definition setText (v : jsstring) (c : t) : t :=
  mk (core c) v (threshold c) (userId c) (analytics c) (selectedApp c)
    (isMonitoring c) (darkMode c) (settingsOpen c) (debounceTimer c)
    (localStorage c) (htmlDark c) (requests c).

Definition setThreshold (v : Q) (c : t) : t :=
  mk (core c) (text c) v (userId c) (analytics c) (selectedApp c)
    (isMonitoring c) (darkMode c) (settingsOpen c) (debounceTimer c)
    (localStorage c) (htmlDark c) (requests c).

Definition setAnalytics (v : option Analytics) (c : t) : t :=
  mk (core c) (text c) (threshold c) (userId c) v (selectedApp c)
    (isMonitoring c) (darkMode c) (settingsOpen c) (debounceTimer c)
    (localStorage c) (htmlDark c) (requests c).

Definition setSelectedApp (v : SimulatedApp) (c : t) : t :=
  mk (core c) (text c) (threshold c) (userId c) (analytics c) v
    (isMonitoring c) (darkMode c) (settingsOpen c) (debounceTimer c)
    (localStorage c) (htmlDark c) (requests c).

Definition setIsMonitoring (v : bool) (c : t) : t :=
  mk (core c) (text c) (threshold c) (userId c) (analytics c)
    (selectedApp c) v (darkMode c) (settingsOpen c) (debounceTimer c)
    (localStorage c) (htmlDark c) (requests c).

Definition setDarkMode (v : bool) (c : t) : t :=
  mk (core c) (text c) (threshold c) (userId c) (analytics c)
    (selectedApp c) (isMonitoring c) v (settingsOpen c) (debounceTimer c)
    (localStorage c) (htmlDark c) (requests c).

Definition setSettingsOpen (v : bool) (c : t) : t :=
  mk (core c) (text c) (threshold c) (userId c) (analytics c)
    (selectedApp c) (isMonitoring c) (darkMode c) v (debounceTimer c)
    (localStorage c) (htmlDark c) (requests c).

Definition with_debounceTimer (v : option (Closure * jsstring * Q)) (c : t) : t :=
  mk (core c) (text c) (threshold c) (userId c) (analytics c)
    (selectedApp c) (isMonitoring c) (darkMode c) (settingsOpen c) v
    (localStorage c) (htmlDark c) (requests c).

Definition setItem (v : option jsstring) (c : t) : t :=
  mk (core c) (text c) (threshold c) (userId c) (analytics c)
    (selectedApp c) (isMonitoring c) (darkMode c) (settingsOpen c)
    (debounceTimer c) v (htmlDark c) (requests c).

Definition classList_toggle (v : bool) (c : t) : t :=
  mk (core c) (text c) (threshold c) (userId c) (analytics c)
    (selectedApp c) (isMonitoring c) (darkMode c) (settingsOpen c)
    (debounceTimer c) (localStorage c) v (requests c).

Definition with_requests (v : list HttpRequest) (c : t) : t :=
  mk (core c) (text c) (threshold c) (userId c) (analytics c)
    (selectedApp c) (isMonitoring c) (darkMode c) (settingsOpen c)
    (debounceTimer c) (localStorage c) (htmlDark c) v.

(** The [analyzeText] of a render, that is, what it closes over. *)
Definition callback (c : t) : Closure :=
  mkClosure (selectedApp c) (isMonitoring c).

End App.

Section WholeComponent.

Variable REACT_APP_BACKEND_URL : option jsstring.

(** [saveSettings(newThreshold)]: the request it posts.  Whether it succeeds
    or fails the component's state stays as it is (a failure is only logged
    to the console). *)
Definition saveSettings (userId : jsstring) (newThreshold : Q) : HttpRequest :=
  {| http_method := POST;
     http_url := API_BASE_URL REACT_APP_BACKEND_URL ++ str "/api/user-settings";
     http_data := [ (str "user_id", JStr userId);
                    (str "threshold", JNum newThreshold) ] |}.

(** [loadAnalytics()]: the request it sends. *)
Definition loadAnalytics : HttpRequest :=
  {| http_method := GET;
     http_url := API_BASE_URL REACT_APP_BACKEND_URL ++ str "/api/analytics";
     http_data := [] |}.

(** The health check [testConnection] sends. *)
Definition health : HttpRequest :=
  {| http_method := GET;
     http_url := API_BASE_URL REACT_APP_BACKEND_URL ++ str "/api/health";
     http_data := [] |}.

Definition send (r : HttpRequest) (c : App.t) : App.t :=
  App.with_requests (App.requests c ++ [r]) c.

(** *** The effects

    Each is given the state of the previous render and that of the new one
    and runs when one of its dependencies differs. *)

(** The dependencies of the debounce effect, [text], [threshold] and
    [analyzeText]; the last one changes with [selectedApp] and
    [isMonitoring]. *)
Definition debounce_deps_same (prev next : App.t) : bool :=
  JsString.eqb (App.text prev) (App.text next)
  && Qeq_bool (App.threshold prev) (App.threshold next)
  && SimulatedApp_eqb (App.selectedApp prev) (App.selectedApp next)
  && Bool.eqb (App.isMonitoring prev) (App.isMonitoring next).

(** The debounce effect: its cleanup clears the timeout of the previous
    render, then a new one is armed. *)
Definition debounceEffect (prev next : App.t) : App.t :=
  if debounce_deps_same prev next then next
  else App.with_debounceTimer
         (Some (App.callback next, App.text next, App.threshold next)) next.

(** The dark-mode effect. *)
Definition darkModeEffect (prev next : App.t) : App.t :=
  if Bool.eqb (App.darkMode prev) (App.darkMode next) then next
  else App.setItem (Some (String_of_boolean (App.darkMode next)))
         (App.classList_toggle (App.darkMode next) next).

(** A render after a state update, with the effects it triggers. *)
Definition rerender (prev next : App.t) : App.t :=
  darkModeEffect prev (debounceEffect prev next).

(** *** The first render and its effects *)

Definition mount (w : Window) (userId : jsstring) : App.t :=
  let selectedApp := nth 0 SIMULATED_APPS (mkApp [] []) in
  let darkMode := getInitialDarkMode (Some w) in
  {| App.core := exec testConnection initial;
     App.text := [];
     App.threshold := (1 # 2)%Q;
     App.userId := userId;
     App.analytics := None;
     App.selectedApp := selectedApp;
     App.isMonitoring := true;
     App.darkMode := darkMode;
     App.settingsOpen := false;
     App.debounceTimer := Some (mkClosure selectedApp true, [], (1 # 2)%Q);
     App.localStorage := Some (String_of_boolean darkMode);
     App.htmlDark := darkMode;
     App.requests := [loadAnalytics; health] |}.

(** *** The handlers *)

(** [handleThresholdChange]: a value equal to the current one leaves the
    state as it is, but is saved all the same. *)
Definition handleThresholdChange (newThreshold : Q) (c : App.t) : App.t :=
  let c1 := if Qeq_bool (App.threshold c) newThreshold then c
            else App.setThreshold newThreshold c in
  rerender c (send (saveSettings (App.userId c) newThreshold) c1).

(** The [onChange] of the select: [value] is the value of the option
    picked. *)
Definition onSelectApp (value : jsstring) (c : App.t) : App.t :=
  match find_app value with
  | Some a => rerender c (App.setSelectedApp a c)
  | None => c
  end.

(** The debounce timeout fires: [analyzeText(text, threshold)]. *)
Definition timeout_fires (c : App.t) : App.t :=
  match App.debounceTimer c with
  | Some (cl, textToAnalyze, currentThreshold) =>
      App.with_debounceTimer None
        (App.with_core
           (exec (step REACT_APP_BACKEND_URL
                    (Call cl textToAnalyze currentThreshold)) (App.core c))
           c)
  | None => c
  end.

(** The Retry button, which is on the page only with the error banner. *)
Definition onRetry (c : App.t) : App.t :=
  match errorBanner (render (App.isMonitoring c) (App.core c)) with
  | Some _ =>
      send health
        (App.with_core (exec (step REACT_APP_BACKEND_URL Connect) (App.core c)) c)
  | None => c
  end.

(** What happens to the page: the user's actions, the timeout, and the
    answers of the network.  [SelectApp i] picks the [i]-th option of the
    select, which are the entries of [SIMULATED_APPS] in order. *)
Inductive PageEvent : Type :=
| ChangeText (value : jsstring)
| ChangeThreshold (value : Q)
| ToggleMonitoring
| SelectApp (i : nat)
| ToggleSettings
| CloseSettings
| ToggleDarkMode
| ClickRetry
| TimeoutFires
| AnalysisSettles (c : AbortController) (o : Outcome)
| HealthSettles (failure : option Error)
| AnalyticsSettles (response : option Analytics)
| ClockMoves (now : jsstring).

Definition handle (e : PageEvent) (c : App.t) : App.t :=
  match e with
  | ChangeText value => rerender c (App.setText value c)
  | ChangeThreshold value => handleThresholdChange value c
  | ToggleMonitoring =>
      rerender c (App.setIsMonitoring (negb (App.isMonitoring c)) c)
  | SelectApp i =>
      match nth_error SIMULATED_APPS i with
      | Some option_i => onSelectApp (app_name option_i) c
      | None => c
      end
  | ToggleSettings => App.setSettingsOpen (negb (App.settingsOpen c)) c
  | CloseSettings => App.setSettingsOpen false c
  | ToggleDarkMode =>
      (* the button is in the settings modal *)
      if App.settingsOpen c
      then rerender c (App.setDarkMode (negb (App.darkMode c)) c)
      else c
  | ClickRetry => onRetry c
  | TimeoutFires => timeout_fires c
  | AnalysisSettles k o =>
      App.with_core (exec (step REACT_APP_BACKEND_URL (Settle k o)) (App.core c)) c
  | HealthSettles failure =>
      App.with_core
        (exec (step REACT_APP_BACKEND_URL (Connected failure)) (App.core c)) c
  | AnalyticsSettles (Some response_data) =>
      App.setAnalytics (Some response_data) c
  | AnalyticsSettles None => c
  | ClockMoves now =>
      App.with_core (exec (step REACT_APP_BACKEND_URL (Tick now)) (App.core c)) c
  end.

Fixpoint session (es : list PageEvent) (c : App.t) : App.t :=
  match es with
  | [] => c
  | e :: es' => session es' (handle e c)
  end.

(** The events that change a dependency of the debounce effect. *)
Definition is_edit (e : PageEvent) : bool :=
  match e with
  | ChangeText _ | ChangeThreshold _ | ToggleMonitoring | SelectApp _ => true
  | _ => false
  end.

End WholeComponent.

(** The thresholds of the settings requests in a log, oldest first. *)
Definition saved_thresholds (rs : list HttpRequest) : list Q :=
  flat_map (fun r =>
              match http_method r, http_data r with
              | POST, [(_, JStr _); (_, JNum v)] => [v]
              | _, _ => []
              end) rs.

(** ** Invariants of the whole component *)

(** The warning flag is the [should_warn] of the analysis on the page. *)
Definition warning_synced (st : State) : Prop :=
  showWarning st =
    match analysis st with
    | Some d => Api.should_warn d
    | None => false
    end.

(** A property of the analysis, the warning flag and the log alone. *)
Definition on_result (P : State -> Prop) : Prop :=
  forall st st',
    analysis st' = analysis st -> showWarning st' = showWarning st ->
    monitoringLogs st' = monitoringLogs st -> P st -> P st'.

(** An armed timeout is the one of the latest render. *)
Definition timer_current (c : App.t) : Prop :=
  forall cl textToAnalyze currentThreshold,
    App.debounceTimer c = Some (cl, textToAnalyze, currentThreshold) ->
    cl = App.callback c /\ textToAnalyze = App.text c /\
    currentThreshold = App.threshold c.

(** The stored item and the class of the document follow [darkMode]. *)
Definition dark_synced (c : App.t) : Prop :=
  App.localStorage c = Some (String_of_boolean (App.darkMode c)) /\
  App.htmlDark c = App.darkMode c.

Definition timer_armed (c : App.t) : nat :=
  match App.debounceTimer c with Some _ => 1 | None => 0 end.

Definition is_timeout (e : PageEvent) : bool :=
  match e with TimeoutFires => true | _ => false end.

(** The code unit of '_'. *)
Definition underscore : N := 0x5F%N.

(** The second entry of [SIMULATED_APPS]. *)
Definition chat : SimulatedApp :=
  mkApp (str "Chat") (str "Type your message...").

(** A first visit with a system that prefers dark, and a session id. *)
Definition browser : Window := mkWindow None true.

Definition someone : jsstring := str "user-k3j9x0q2a".

(** * Properties *)

Module JsStringFacts.
Import JsString.

Lemma eqb_eq a b : eqb a b = true <-> a = b.
Proof.
  revert b; induction a as [|x a IH]; intros [|y b]; simpl;
    try (split; [discriminate | congruence]); try tauto.
  rewrite andb_true_iff, N.eqb_eq, IH. split.
  - intros [-> ->]; reflexivity.
  - intros E; injection E; auto.
Qed.

Lemma eqb_neq a b : eqb a b = false <-> a <> b.
Proof.
  rewrite <- eqb_eq. destruct (eqb a b); split; congruence.
Qed.

Lemma trimStart_all_white s :
  forallb isWhiteSpace s = true -> trimStart s = [].
Proof.
  induction s as [|c s IH]; simpl; [reflexivity|].
  rewrite andb_true_iff. intros [-> H]. auto.
Qed.

Lemma trimStart_nil_inv s :
  trimStart s = [] -> forallb isWhiteSpace s = true.
Proof.
  induction s as [|c s IH]; simpl; [reflexivity|].
  destruct (isWhiteSpace c); [auto | discriminate].
Qed.

Lemma trimStart_head s c r :
  trimStart s = c :: r -> isWhiteSpace c = false.
Proof.
  induction s as [|d s IH]; simpl; [discriminate|].
  destruct (isWhiteSpace d) eqn:E; [auto|].
  intros H; injection H as -> _; exact E.
Qed.

(** What is left after [trimStart] is a suffix of the string. *)
Lemma trimStart_suffix s : exists p, s = p ++ trimStart s.
Proof.
  induction s as [|c s [p IH]]; simpl.
  - exists []; reflexivity.
  - destruct (isWhiteSpace c).
    + exists (c :: p). simpl. congruence.
    + exists []; reflexivity.
Qed.

(** The trimmed string is empty exactly when every code unit is white. *)
Lemma trim_nil_iff s : trim s = [] <-> forallb isWhiteSpace s = true.
Proof.
  unfold trim, trimEnd. split.
  - intros H. apply trimStart_nil_inv.
    destruct (trimStart s) as [|c r] eqn:E; [reflexivity|].
    apply (f_equal (@rev N)) in H. rewrite rev_involutive in H. simpl in H.
    apply trimStart_nil_inv in H. rewrite forallb_forall in H.
    assert (W : isWhiteSpace c = true)
      by (apply H, in_or_app; right; left; reflexivity).
    rewrite (trimStart_head _ _ _ E) in W. discriminate.
  - intros H. rewrite (trimStart_all_white _ H). reflexivity.
Qed.

End JsStringFacts.

Section Properties.

Variable env : option jsstring.

(** *** Blank input *)

Lemma analyzeText_blank cl txt thr st :
  JsString.trim txt = [] ->
  exec (analyzeText env cl txt thr) st = cleared st.
Proof.
  intros E. unfold analyzeText. rewrite E. reflexivity.
Qed.

Lemma analyzeText_not_blank cl txt thr :
  JsString.trim txt <> [] ->
  analyzeText env cl txt thr =
    (cancelPrevious ;;
     c <- newAbortController ;;
     setCurrent (Some c) ;;
     setLoading true ;;
     setError None ;;
     post cl txt (analyze_request env txt thr c)).
Proof.
  intros E. unfold analyzeText.
  destruct (JsString.trim txt); [congruence | reflexivity].
Qed.

(** C2: when the trimmed text is empty, [analyzeText] sends no request (the
    requests sent and the requests awaited are what they were) and leaves
    the analysis null, the warning flag false and the error null. *)
Theorem analyzeText_empty_input cl txt thr st :
  JsString.trim txt = [] ->
  let st' := exec (analyzeText env cl txt thr) st in
  sent st' = sent st /\ in_flight st' = in_flight st /\
  analysis st' = None /\ showWarning st' = false /\ error st' = None.
Proof.
  intros E st'. subst st'. rewrite (analyzeText_blank _ _ _ _ E).
  repeat split.
Qed.

(** C9: a text made of white space only is handled as the empty text is: the
    call ends in the same state, with no request sent and the analysis, the
    warning flag and the error cleared. *)
Theorem analyzeText_whitespace_input cl txt thr st :
  Forall (fun c => JsString.isWhiteSpace c = true) txt ->
  let st' := exec (analyzeText env cl txt thr) st in
  st' = exec (analyzeText env cl [] thr) st /\
  sent st' = sent st /\ in_flight st' = in_flight st /\
  analysis st' = None /\ showWarning st' = false /\ error st' = None.
Proof.
  intros W st'. subst st'.
  assert (E : JsString.trim txt = []).
  { apply JsStringFacts.trim_nil_iff, forallb_forall.
    intros c Hc. exact (proj1 (Forall_forall _ _) W c Hc). }
  rewrite (analyzeText_blank _ _ _ _ E).
  rewrite (analyzeText_blank cl [] thr st eq_refl).
  repeat split.
Qed.


(** *** One request at a time *)

Lemma exec_bind {A B} (c : M A) (k : A -> M B) st :
  exec (x <- c ;; k x) st = exec (k (fst (c st))) (snd (c st)).
Proof.
  unfold exec, bind. destruct (c st); reflexivity.
Qed.

Lemma same_world_refl st : same_world st st.
Proof. repeat split. Qed.

Lemma same_world_trans st1 st2 st3 :
  same_world st1 st2 -> same_world st2 st3 -> same_world st1 st3.
Proof.
  unfold same_world. intros (a1 & a2 & a3 & a4 & a5 & a6 & a7)
    (b1 & b2 & b3 & b4 & b5 & b6 & b7).
  repeat split; congruence.
Qed.

Lemma resume_same_world f o st :
  same_world st (exec (analyzeText_resume f o) st).
Proof.
  destruct o as [d | e]; unfold analyzeText_resume.
  - destruct (isMonitoring (closure f)); repeat split.
  - destruct (JsString.eqb (name e) (str "AbortError")); repeat split.
Qed.

Lemma resumeAll_same_world js st :
  same_world st (exec (resumeAll js) st).
Proof.
  revert st; induction js as [| [f o] js IH]; intros st; simpl.
  - apply same_world_refl.
  - rewrite exec_bind. eapply same_world_trans; [| apply IH].
    apply resume_same_world.
Qed.

Lemma in_flight_cases st :
  single_flight st ->
  in_flight st = [] \/
  exists f, in_flight st = [f] /\
            abortControllerRef st = Some (signal (config (request f))).
Proof.
  intros [_ H]. destruct (in_flight st) as [| f l] eqn:E; [left; reflexivity|].
  right. exists f. destruct (H f (or_introl eq_refl)) as [H1 H2].
  rewrite H1. split; [reflexivity | exact H2].
Qed.

(** Under the invariant [cancelPrevious] empties the network's hands: what
    was awaited is queued to resume with axios's cancellation. *)
Lemma cancelPrevious_spec st :
  single_flight st ->
  let st1 := exec cancelPrevious st in
  in_flight st1 = [] /\
  jobs st1 = map (fun f => (f, Rejected CanceledError)) (in_flight st) /\
  (forall f, In f (in_flight st) ->
     In (signal (config (request f))) (aborted st1)) /\
  controllers st1 = controllers st /\ sent st1 = sent st /\
  analysis st1 = analysis st /\ showWarning st1 = showWarning st /\
  error st1 = error st /\ monitoringLogs st1 = monitoringLogs st /\
  loading st1 = loading st /\ clock st1 = clock st.
Proof.
  intros I. pose proof (in_flight_cases st I) as C. destruct I as [J _].
  unfold cancelPrevious, exec, bind, current, abort, ret; simpl.
  destruct C as [E | (f & E & R)].
  - destruct (abortControllerRef st); simpl; rewrite ?E, ?J; simpl;
      repeat split; intros ? [].
  - rewrite R; simpl. rewrite E, J; simpl. unfold waits_on.
    rewrite Nat.eqb_refl; simpl. repeat split.
    intros g [<- | []]. left; reflexivity.
Qed.

(** The synchronous part of a call on a text that is not blank. *)
Lemma analyzeText_issue cl txt thr st :
  JsString.trim txt <> [] ->
  single_flight st ->
  let st2 := exec (analyzeText env cl txt thr) st in
  let r := analyze_request env txt thr (controllers st) in
  in_flight st2 = [mkSuspended r cl txt] /\
  abortControllerRef st2 = Some (controllers st) /\
  sent st2 = sent st ++ [r] /\
  jobs st2 = map (fun f => (f, Rejected CanceledError)) (in_flight st) /\
  error st2 = None /\ loading st2 = true /\
  analysis st2 = analysis st /\ showWarning st2 = showWarning st /\
  monitoringLogs st2 = monitoringLogs st /\ clock st2 = clock st /\
  controllers st2 = S (controllers st).
Proof.
  intros E I. rewrite (analyzeText_not_blank _ _ _ E).
  destruct (cancelPrevious_spec st I)
    as (P1 & P2 & _ & P4 & P5 & P6 & P7 & _ & P9 & _ & P11).
  rewrite exec_bind. fold (exec cancelPrevious st).
  set (st1 := exec cancelPrevious st) in *.
  unfold exec, bind, newAbortController, setCurrent, setLoading, setError,
    post; simpl.
  rewrite P1, P2, P4, P5, P6, P7, P9, P11. repeat split.
Qed.

Lemma exec_runJobs_nil st :
  jobs st = [] -> exec runJobs st = st.
Proof.
  intros J. unfold runJobs, exec, bind, takeJobs; simpl. rewrite J; simpl.
  destruct st; simpl in *; subst; reflexivity.
Qed.

Lemma runJobs_spec st :
  let st' := exec runJobs st in
  jobs st' = [] /\ in_flight st' = in_flight st /\
  abortControllerRef st' = abortControllerRef st /\
  sent st' = sent st /\ controllers st' = controllers st /\
  aborted st' = aborted st.
Proof.
  unfold runJobs. rewrite exec_bind.
  destruct (resumeAll_same_world (fst (takeJobs st)) (snd (takeJobs st)))
    as (a1 & a2 & a3 & a4 & a5 & a6 & a7).
  simpl in *. rewrite a1, a2, a3, a4, a5, a6. repeat split.
Qed.

Lemma exec_then_runJobs (c : M unit) st :
  jobs (exec c st) = [] -> exec (c ;; runJobs) st = exec c st.
Proof.
  intros J. rewrite exec_bind. fold (exec c st). apply exec_runJobs_nil, J.
Qed.

(** The health check touches the loading flag and the error only. *)
Lemma step_connect st :
  single_flight st ->
  exec (step env Connect) st = exec testConnection st.
Proof.
  intros [J _]. apply exec_then_runJobs. exact J.
Qed.

Lemma step_connected failure st :
  single_flight st ->
  exec (step env (Connected failure)) st
    = exec (testConnection_resume failure) st.
Proof.
  intros [J _]. apply exec_then_runJobs. destruct failure; exact J.
Qed.

Lemma step_single_flight e st :
  single_flight st -> single_flight (exec (step env e) st).
Proof.
  intros I. destruct e as [cl txt thr | c o | | failure | now]; simpl.
  - rewrite exec_bind. fold (exec (analyzeText env cl txt thr) st).
    destruct (runJobs_spec (exec (analyzeText env cl txt thr) st))
      as (R1 & R2 & R3 & _).
    split; [exact R1|]. rewrite R2, R3.
    destruct (list_eq_dec N.eq_dec (JsString.trim txt) []) as [E | E].
    + rewrite (analyzeText_blank _ _ _ _ E). simpl. exact (proj2 I).
    + destruct (analyzeText_issue cl txt thr st E I) as (Q1 & Q2 & _).
      rewrite Q1, Q2. intros f [<- | []]. split; reflexivity.
  - destruct I as [J H].
    rewrite exec_bind.
    set (fs := fst (complete c st)). set (st1 := snd (complete c st)).
    rewrite exec_bind. fold (exec (resumeAll (map (fun f => (f, o)) fs)) st1).
    destruct (resumeAll_same_world (map (fun f => (f, o)) fs) st1)
      as (a1 & _ & _ & a4 & _ & a6 & _).
    set (st2 := exec (resumeAll (map (fun f => (f, o)) fs)) st1) in *.
    assert (J2 : jobs st2 = []) by (rewrite a6; exact J).
    rewrite (exec_runJobs_nil _ J2). split; [exact J2|].
    rewrite a4, a1. subst st1; simpl.
    intros f Hf. apply filter_In in Hf. destruct Hf as [Hf Hw].
    destruct (H f Hf) as [H1 H2]. split; [| exact H2].
    rewrite H1. simpl. rewrite Hw. reflexivity.
  - fold (step env Connect). rewrite (step_connect st I). exact I.
  - fold (step env (Connected failure)). rewrite (step_connected _ st I).
    destruct failure; exact I.
  - exact I.
Qed.

Lemma initial_single_flight : single_flight initial.
Proof. split; [reflexivity | intros f []]. Qed.

Lemma run_single_flight es st :
  single_flight st -> single_flight (run env es st).
Proof.
  revert st; induction es as [| e es IH]; intros st I; simpl; [exact I|].
  apply IH, step_single_flight, I.
Qed.

(** C3: in every state the component can reach at most one analysis request
    is awaited; and a call on a text that is not blank first aborts what was
    awaited (after the abort nothing is, and the signal of each request that
    was has fired), and only then sends the new request, which is then the
    one awaited. *)
Theorem single_request_outstanding es :
  let st := run env es initial in
  List.length (in_flight st) <= 1 /\
  forall cl txt thr, JsString.trim txt <> [] ->
    let st1 := exec cancelPrevious st in
    let st2 := exec (analyzeText env cl txt thr) st in
    in_flight st1 = [] /\
    sent st1 = sent st /\
    (forall f, In f (in_flight st) ->
       In (signal (config (request f))) (aborted st1)) /\
    in_flight st2 =
      [mkSuspended (analyze_request env txt thr (controllers st)) cl txt] /\
    sent st2 = sent st ++ [analyze_request env txt thr (controllers st)].
Proof.
  intros st.
  assert (I : single_flight st)
    by (apply run_single_flight, initial_single_flight).
  split.
  - destruct (in_flight_cases st I) as [E | (f & E & _)]; rewrite E; simpl; lia.
  - intros cl txt thr E st1 st2.
    destruct (cancelPrevious_spec st I) as (P1 & _ & P3 & _ & P5 & _).
    destruct (analyzeText_issue cl txt thr st E I) as (Q1 & _ & Q3 & _).
    repeat split; assumption.
Qed.

(** *** Failures *)

(** The [catch] block on an error that is not taken for a cancellation. *)
Lemma resume_rejected f e st :
  name e <> str "AbortError" ->
  exec (analyzeText_resume f (Rejected e)) st =
    mkState None false false (monitoringLogs st)
      (Some (str "Analysis failed: " ++ message e))
      (abortControllerRef st) (controllers st) (aborted st) (in_flight st)
      (sent st) (jobs st) (clock st).
Proof.
  intros N. unfold analyzeText_resume.
  rewrite (proj2 (JsStringFacts.eqb_neq _ _) N). reflexivity.
Qed.

(** Settling the one awaited request: the invocation waiting on it resumes
    and nothing is awaited any more. *)
Lemma step_settle_awaited c o f st :
  single_flight st ->
  In f (in_flight st) -> waits_on c f = true ->
  exec (step env (Settle c o)) st =
    exec (analyzeText_resume f o)
      (mkState (analysis st) (loading st) (showWarning st) (monitoringLogs st)
         (error st) (abortControllerRef st) (controllers st) (aborted st)
         [] (sent st) [] (clock st)).
Proof.
  intros I Hf Hw. destruct (proj2 I f Hf) as [E _]. destruct I as [J _].
  simpl. rewrite exec_bind. unfold complete; simpl. rewrite E; simpl.
  rewrite Hw; simpl. rewrite J.
  rewrite exec_bind.
  set (st0 := mkState _ _ _ _ _ _ _ _ _ _ _ _).
  fold (exec (analyzeText_resume f o ;; ret tt) st0).
  assert (R : exec (analyzeText_resume f o ;; ret tt) st0
              = exec (analyzeText_resume f o) st0).
  { rewrite exec_bind. reflexivity. }
  rewrite R. apply exec_runJobs_nil.
  destruct (resume_same_world f o st0) as (_ & _ & _ & _ & _ & a6 & _).
  rewrite a6. reflexivity.
Qed.

(** C6: when a request that is still awaited fails with an error that is not
    named as a cancellation, the error state becomes "Analysis failed: "
    followed by the error's message, the analysis becomes null and the
    warning flag false; the page then shows the banner with that text and a
    Retry button, and neither the results panel nor the warning. *)
Theorem failed_request_shows_retry_banner es c e monitoring :
  name e <> str "AbortError" ->
  (exists f, In f (in_flight (run env es initial)) /\ waits_on c f = true) ->
  let st' := exec (step env (Settle c (Rejected e))) (run env es initial) in
  error st' = Some (str "Analysis failed: " ++ message e) /\
  analysis st' = None /\
  showWarning st' = false /\
  errorBanner (render monitoring st') =
    Some (mkBanner (str "Analysis failed: " ++ message e) (str "Retry")
            testConnection) /\
  results (render monitoring st') = None /\
  warningAlert (render monitoring st') = false.
Proof.
  intros N (f & Hf & Hw) st'. subst st'.
  assert (I : single_flight (run env es initial))
    by (apply run_single_flight, initial_single_flight).
  rewrite (step_settle_awaited c _ f _ I Hf Hw).
  rewrite (resume_rejected _ _ _ N). simpl. repeat split.
Qed.

(** *** What goes to the endpoint and what is read of its answer *)

Lemma step_sent e st :
  single_flight st ->
  sent (exec (step env e) st) = sent st \/
  exists txt thr c,
    sent (exec (step env e) st) = sent st ++ [analyze_request env txt thr c].
Proof.
  intros I. destruct e as [cl txt thr | c o | | failure | now]; simpl.
  - rewrite exec_bind. fold (exec (analyzeText env cl txt thr) st).
    destruct (runJobs_spec (exec (analyzeText env cl txt thr) st))
      as (_ & _ & _ & R4 & _).
    rewrite R4.
    destruct (list_eq_dec N.eq_dec (JsString.trim txt) []) as [E | E].
    + rewrite (analyzeText_blank _ _ _ _ E). left; reflexivity.
    + destruct (analyzeText_issue cl txt thr st E I) as (_ & _ & Q3 & _).
      right. exists txt, thr, (controllers st). exact Q3.
  - left. rewrite exec_bind.
    set (fs := fst (complete c st)). set (st1 := snd (complete c st)).
    rewrite exec_bind. fold (exec (resumeAll (map (fun f => (f, o)) fs)) st1).
    destruct (runJobs_spec (exec (resumeAll (map (fun f => (f, o)) fs)) st1))
      as (_ & _ & _ & R4 & _).
    rewrite R4.
    destruct (resumeAll_same_world (map (fun f => (f, o)) fs) st1)
      as (_ & _ & _ & _ & a5 & _).
    rewrite a5. reflexivity.
  - left. fold (step env Connect). rewrite (step_connect st I). reflexivity.
  - left. fold (step env (Connected failure)).
    rewrite (step_connected _ st I). destruct failure; reflexivity.
  - left; reflexivity.
Qed.

Lemma run_sent es st :
  single_flight st ->
  Forall (fun r => exists txt thr c, r = analyze_request env txt thr c)
    (sent st) ->
  Forall (fun r => exists txt thr c, r = analyze_request env txt thr c)
    (sent (run env es st)).
Proof.
  revert st; induction es as [| e es IH]; intros st I F; simpl; [exact F|].
  apply IH; [apply step_single_flight, I|].
  destruct (step_sent e st I) as [-> | (txt & thr & c & ->)]; [exact F|].
  apply Forall_app. split; [exact F|].
  constructor; [| constructor]. exists txt, thr, c. reflexivity.
Qed.

(** The [try] block after the [await]. *)
Lemma resume_resolved f d st :
  exec (analyzeText_resume f (Resolved d)) st =
    mkState (Some d) false (Api.should_warn d)
      (if isMonitoring (closure f)
       then {| timestamp := clock st;
               app := app_name (selectedApp (closure f));
               text := truncated (textToAnalyze f);
               regretScore := Api.regret_score d;
               warned := Api.should_warn d |} :: firstn 9 (monitoringLogs st)
       else monitoringLogs st)
      (error st) (abortControllerRef st) (controllers st) (aborted st)
      (in_flight st) (sent st) (jobs st) (clock st).
Proof.
  unfold analyzeText_resume. destruct (isMonitoring (closure f)); reflexivity.
Qed.

(** C7: every request the component has sent is the analysis request of some
    text and threshold: it goes to [/api/analyze-text] under the base URL and
    its body is the object with the two fields [text] and [threshold], in
    that order, holding that text and that threshold.  Of the answer only
    [regret_score], [should_warn] and [analysis] are read: the warning flag,
    the log and the page are the same whatever else the object holds, and
    they show these three. *)
Theorem analyze_request_and_response_fields es f d others st monitoring :
  Forall (fun r => exists txt thr c,
            r = analyze_request env txt thr c /\
            url r = API_BASE_URL env ++ str "/api/analyze-text" /\
            data r = [(str "text", JStr txt); (str "threshold", JNum thr)] /\
            map fst (data r) = [str "text"; str "threshold"])
    (sent (run env es initial)) /\
  (let d' := Api.mkData (Api.regret_score d) (Api.should_warn d)
               (Api.analysis d) others in
   let s := exec (analyzeText_resume f (Resolved d)) st in
   let s' := exec (analyzeText_resume f (Resolved d')) st in
   render monitoring s' = render monitoring s /\
   showWarning s' = showWarning s /\
   monitoringLogs s' = monitoringLogs s) /\
  (let s := exec (analyzeText_resume f (Resolved d)) st in
   showWarning s = Api.should_warn d /\
   warningAlert (render monitoring s) = Api.should_warn d /\
   option_map overall_score (results (render monitoring s))
     = Some (Api.regret_score d) /\
   option_map breakdown (results (render monitoring s))
     = Some (map breakdown_row (Api.analysis d)) /\
   option_map overall_label (results (render monitoring s))
     = Some (getRegretScoreLabel (Api.regret_score d))).
Proof.
  split; [| split].
  - assert (F : Forall (fun r => exists txt thr c,
                          r = analyze_request env txt thr c)
                  (sent (run env es initial))).
    { apply run_sent; [apply initial_single_flight | constructor]. }
    eapply Forall_impl; [| exact F].
    intros r (txt & thr & c & ->). exists txt, thr, c. repeat split.
  - cbv zeta. rewrite !resume_resolved. simpl.
    unfold render; simpl. repeat split.
  - cbv zeta. rewrite resume_resolved. unfold render; simpl.
    rewrite andb_true_r. repeat split.
Qed.

(** *** The monitoring log *)

Lemma truncated_long txt :
  50 < List.length txt -> truncated txt = firstn 50 txt ++ str "...".
Proof.
  intros H. unfold truncated, JsString.slice0.
  rewrite (proj2 (Nat.ltb_lt _ _) H). reflexivity.
Qed.

Lemma truncated_short txt :
  List.length txt <= 50 -> truncated txt = txt.
Proof.
  intros H. unfold truncated, JsString.slice0.
  rewrite (proj2 (Nat.ltb_ge _ _) H), app_nil_r.
  apply firstn_all2, H.
Qed.

(** C8: a successful analysis made while monitoring is on puts at the head
    of the log an entry with the time of day, the name of the simulated
    application, the score and the warned flag, and with the text cut to its
    first 50 code units: followed by "..." when the text is longer than 50,
    and the whole text, with nothing added, when it is not. *)
Theorem monitoring_log_entry f d st :
  isMonitoring (closure f) = true ->
  let st' := exec (analyzeText_resume f (Resolved d)) st in
  let txt := textToAnalyze f in
  exists entry rest,
    monitoringLogs st' = entry :: rest /\
    timestamp entry = clock st /\
    app entry = app_name (selectedApp (closure f)) /\
    regretScore entry = Api.regret_score d /\
    warned entry = Api.should_warn d /\
    text entry =
      firstn 50 txt ++ (if Nat.ltb 50 (List.length txt) then str "..." else []) /\
    (50 < List.length txt -> text entry = firstn 50 txt ++ str "...") /\
    (List.length txt <= 50 -> text entry = txt).
Proof.
  intros Mon st' txt. subst st' txt. rewrite resume_resolved, Mon.
  eexists _, _. simpl. split; [reflexivity|].
  repeat split.
  - apply truncated_long.
  - apply truncated_short.
Qed.

Lemma resume_logs f o st :
  monitoringLogs (exec (analyzeText_resume f o) st) = monitoringLogs st \/
  exists entry,
    monitoringLogs (exec (analyzeText_resume f o) st)
      = entry :: firstn 9 (monitoringLogs st).
Proof.
  destruct o as [d | e].
  - rewrite resume_resolved. simpl.
    destruct (isMonitoring (closure f)); [right; eexists; reflexivity | left; reflexivity].
  - left. unfold analyzeText_resume.
    destruct (JsString.eqb (name e) (str "AbortError")); reflexivity.
Qed.

Lemma resumeAll_rejected_logs fs e st :
  monitoringLogs (exec (resumeAll (map (fun f => (f, Rejected e)) fs)) st)
    = monitoringLogs st.
Proof.
  revert st; induction fs as [| f fs IH]; intros st; simpl; [reflexivity|].
  rewrite exec_bind, IH. simpl. unfold analyzeText_resume.
  destruct (JsString.eqb (name e) (str "AbortError")); reflexivity.
Qed.

(** One event changes the log by at most one entry, put in front of the
    nine newest of the entries there were. *)
Lemma step_logs e st :
  single_flight st ->
  monitoringLogs (exec (step env e) st) = monitoringLogs st \/
  exists entry,
    monitoringLogs (exec (step env e) st)
      = entry :: firstn 9 (monitoringLogs st).
Proof.
  intros I. destruct e as [cl txt thr | c o | | failure | now].
  - left. simpl. rewrite exec_bind. fold (exec (analyzeText env cl txt thr) st).
    set (st2 := exec (analyzeText env cl txt thr) st).
    unfold runJobs. rewrite exec_bind. simpl.
    destruct (list_eq_dec N.eq_dec (JsString.trim txt) []) as [E | E].
    + subst st2. rewrite (analyzeText_blank _ _ _ _ E). simpl.
      rewrite (proj1 I). reflexivity.
    + destruct (analyzeText_issue cl txt thr st E I)
        as (_ & _ & _ & Q4 & _ & _ & _ & _ & Q9 & _).
      fold st2 in Q4, Q9. rewrite Q4, resumeAll_rejected_logs. exact Q9.
  - destruct (in_flight st) as [| f l] eqn:E.
    + left. unfold step. rewrite exec_bind. unfold complete; simpl. rewrite E; simpl.
      rewrite exec_bind. simpl. rewrite exec_runJobs_nil; [reflexivity|].
      simpl. exact (proj1 I).
    + destruct (proj2 I f) as [E1 _]; [rewrite E; left; reflexivity|].
      destruct (waits_on c f) eqn:Hw.
      * rewrite (step_settle_awaited c o f st I);
          [| rewrite E; left; reflexivity | exact Hw].
        match goal with
        | |- context [exec (analyzeText_resume f o) ?s] =>
            exact (resume_logs f o s)
        end.
      * left. unfold step. rewrite exec_bind. unfold complete; simpl.
        rewrite E1; simpl.
        rewrite Hw; simpl. rewrite exec_bind. simpl.
        rewrite exec_runJobs_nil; [reflexivity|]. simpl. exact (proj1 I).
  - left. rewrite (step_connect st I). reflexivity.
  - left. rewrite (step_connected _ st I). destruct failure; reflexivity.
  - left; reflexivity.
Qed.

Lemma run_logs_bounded es st :
  single_flight st ->
  List.length (monitoringLogs st) <= 10 ->
  List.length (monitoringLogs (run env es st)) <= 10.
Proof.
  revert st; induction es as [| e es IH]; intros st I B; simpl; [exact B|].
  apply IH; [apply step_single_flight, I|].
  destruct (step_logs e st I) as [-> | (entry & ->)]; [exact B|].
  pose proof (firstn_le_length 9 (monitoringLogs st)).
  cbn [List.length]. lia.
Qed.

(** C10: the monitoring log never holds more than 10 entries, and whatever
    happens next either leaves it as it is or puts one new entry at its head
    and keeps, after it and in their order, the first 9 of the entries it
    held (all of them when there were at most 9). *)
Theorem monitoring_logs_bounded es :
  let st := run env es initial in
  List.length (monitoringLogs st) <= 10 /\
  forall e,
    let st' := exec (step env e) st in
    List.length (monitoringLogs st') <= 10 /\
    (monitoringLogs st' = monitoringLogs st \/
     exists entry,
       monitoringLogs st' = entry :: firstn 9 (monitoringLogs st) /\
       (List.length (monitoringLogs st) <= 9 ->
        monitoringLogs st' = entry :: monitoringLogs st)).
Proof.
  intros st.
  assert (I : single_flight st)
    by (apply run_single_flight, initial_single_flight).
  assert (B : List.length (monitoringLogs st) <= 10).
  { apply run_logs_bounded; [apply initial_single_flight | simpl; lia]. }
  split; [exact B|]. intros e st'. split.
  - apply (run_logs_bounded [e] st I B).
  - destruct (step_logs e st I) as [H | (entry & H)]; [left; exact H|].
    right. exists entry. split; [exact H|].
    intros L. fold st' in H. rewrite H, firstn_all2; [reflexivity | exact L].
Qed.

(** *** The superseded request and the blank text, further *)

Lemma step_call_world cl txt thr st :
  single_flight st ->
  JsString.trim txt <> [] ->
  let st' := exec (step env (Call cl txt thr)) st in
  in_flight st' =
    [mkSuspended (analyze_request env txt thr (controllers st)) cl txt] /\
  jobs st' = [] /\
  controllers st' = S (controllers st) /\
  abortControllerRef st' = Some (controllers st).
Proof.
  intros I E. simpl. rewrite exec_bind.
  fold (exec (analyzeText env cl txt thr) st).
  destruct (runJobs_spec (exec (analyzeText env cl txt thr) st))
    as (R1 & R2 & R3 & _ & R5 & _).
  destruct (analyzeText_issue cl txt thr st E I)
    as (Q1 & Q2 & _ & _ & _ & _ & _ & _ & _ & _ & Q11).
  rewrite R1, R2, R3, R5, Q1, Q2, Q11. repeat split.
Qed.

Lemma step_call_blank cl txt thr st :
  single_flight st ->
  JsString.trim txt = [] ->
  exec (step env (Call cl txt thr)) st = cleared st.
Proof.
  intros I E. simpl. rewrite exec_then_runJobs.
  - apply analyzeText_blank, E.
  - rewrite (analyzeText_blank _ _ _ _ E). exact (proj1 I).
Qed.

Lemma step_settle_world c o st :
  let st' := exec (step env (Settle c o)) st in
  in_flight st' = filter (fun f => negb (waits_on c f)) (in_flight st) /\
  controllers st' = controllers st.
Proof.
  simpl. rewrite exec_bind.
  set (fs := fst (complete c st)). set (st1 := snd (complete c st)).
  rewrite exec_bind. fold (exec (resumeAll (map (fun f => (f, o)) fs)) st1).
  destruct (runJobs_spec (exec (resumeAll (map (fun f => (f, o)) fs)) st1))
    as (_ & R2 & _ & _ & R5 & _).
  destruct (resumeAll_same_world (map (fun f => (f, o)) fs) st1)
    as (_ & a2 & _ & a4 & _).
  rewrite R2, R5, a2, a4. split; reflexivity.
Qed.

Lemma step_controllers_counted e st :
  single_flight st ->
  controllers_counted st -> controllers_counted (exec (step env e) st).
Proof.
  intros I K. destruct e as [cl txt thr | c o | | failure | now].
  - destruct (list_eq_dec N.eq_dec (JsString.trim txt) []) as [E | E].
    + rewrite (step_call_blank _ _ _ _ I E). exact K.
    + destruct (step_call_world cl txt thr st I E) as (W1 & _ & W3 & _).
      intros f Hf. rewrite W1 in Hf. rewrite W3.
      destruct Hf as [<- | []]. simpl. lia.
  - destruct (step_settle_world c o st) as [W1 W2].
    intros f Hf. rewrite W1 in Hf. rewrite W2.
    apply filter_In in Hf. apply K, Hf.
  - rewrite (step_connect st I). exact K.
  - rewrite (step_connected _ st I). destruct failure; exact K.
  - exact K.
Qed.

Lemma run_invariants es st :
  single_flight st -> controllers_counted st ->
  single_flight (run env es st) /\ controllers_counted (run env es st).
Proof.
  revert st; induction es as [| e es IH]; intros st I K; simpl; [tauto|].
  apply IH; [apply step_single_flight, I | apply step_controllers_counted; assumption].
Qed.

Lemma filter_miss {A} (p : A -> bool) (l : list A) :
  (forall x, In x l -> p x = false) ->
  filter p l = [] /\ filter (fun x => negb (p x)) l = l.
Proof.
  induction l as [| x l IH]; intros H; simpl; [split; reflexivity|].
  rewrite (H x (or_introl eq_refl)). simpl.
  destruct IH as [IH1 IH2]; [intros y Hy; apply H; right; exact Hy|].
  rewrite IH2. split; [exact IH1 | reflexivity].
Qed.

Lemma complete_miss c st :
  (forall f, In f (in_flight st) -> waits_on c f = false) ->
  complete c st = ([], st).
Proof.
  intros H. unfold complete.
  destruct (filter_miss (waits_on c) (in_flight st) H) as [A B].
  rewrite A, B. destruct st; reflexivity.
Qed.

(** X1: once a request has been superseded, whatever the network later has
    for it never reaches the component: settling it changes nothing. *)
Theorem superseded_response_is_dropped es cl txt thr f o :
  In f (in_flight (run env es initial)) ->
  JsString.trim txt <> [] ->
  let st' := exec (step env (Call cl txt thr)) (run env es initial) in
  exec (step env (Settle (signal (config (request f))) o)) st' = st'.
Proof.
  intros Hf E st'.
  destruct (run_invariants es initial initial_single_flight) as [I K];
    [intros g [] |].
  pose proof (K f Hf) as Lt.
  destruct (step_call_world cl txt thr _ I E) as (W1 & W2 & _).
  fold st' in W1, W2.
  unfold step. rewrite exec_bind, complete_miss.
  - simpl. rewrite exec_bind. simpl. apply exec_runJobs_nil, W2.
  - intros g Hg. rewrite W1 in Hg. destruct Hg as [<- | []].
    unfold waits_on; simpl. apply Nat.eqb_neq. lia.
Qed.

(** X2: the [catch] block on an error named "AbortError": only [finally]
    has an effect, the loading flag. *)
Theorem abort_error_is_ignored f e st :
  name e = str "AbortError" ->
  exec (analyzeText_resume f (Rejected e)) st =
    mkState (analysis st) false (showWarning st) (monitoringLogs st)
      (error st) (abortControllerRef st) (controllers st) (aborted st)
      (in_flight st) (sent st) (jobs st) (clock st).
Proof.
  intros E. unfold analyzeText_resume.
  rewrite (proj2 (JsStringFacts.eqb_eq _ _) E). reflexivity.
Qed.

(** X3: a call on blank text clears the page but does not abort: the
    request that was awaited still is, and its answer is put on the page
    when it comes. *)
Theorem blank_input_leaves_request_running es cl txt thr f c d :
  In f (in_flight (run env es initial)) ->
  waits_on c f = true ->
  JsString.trim txt = [] ->
  let st := run env es initial in
  let st1 := exec (step env (Call cl txt thr)) st in
  let st2 := exec (step env (Settle c (Resolved d))) st1 in
  in_flight st1 = in_flight st /\ aborted st1 = aborted st /\
  analysis st1 = None /\
  analysis st2 = Some d /\ showWarning st2 = Api.should_warn d.
Proof.
  intros Hf Hw E st st1 st2.
  assert (I : single_flight st)
    by (apply run_single_flight, initial_single_flight).
  assert (E1 : st1 = cleared st) by (apply step_call_blank; assumption).
  assert (I1 : single_flight st1) by (apply step_single_flight, I).
  assert (Hf1 : In f (in_flight st1)) by (rewrite E1; exact Hf).
  subst st2. rewrite (step_settle_awaited c _ f st1 I1 Hf1 Hw).
  rewrite resume_resolved. rewrite E1. simpl. repeat split.
Qed.
End Properties.

(** *** The endpoint's warning flag *)

(** C1: the answer of the analysis endpoint has [should_warn] false when the
    regret score is below the threshold of the request, and true when the
    score is the threshold or more. *)
Theorem should_warn_thresholds classifier txt threshold :
  let r := Backend.analyze_text classifier txt threshold in
  (Api.regret_score r < threshold -> Api.should_warn r = false)%Q /\
  (threshold <= Api.regret_score r -> Api.should_warn r = true)%Q.
Proof.
  unfold Backend.analyze_text. destruct (classifier txt) as [score cats].
  simpl. split; intros H.
  - destruct (Qle_bool threshold score) eqn:E; [| reflexivity].
    apply Qle_bool_iff in E. destruct (Qlt_not_le _ _ H E).
  - apply Qle_bool_iff, H.
Qed.

(** *** Instances *)

Lemma analyzeText_empty_input_witness :
  JsString.trim (str "") = [] /\
  let st' := exec (analyzeText None email (str "") half) initial in
  sent st' = sent initial /\ in_flight st' = in_flight initial /\
  analysis st' = None /\ showWarning st' = false /\ error st' = None.
Proof.
  split; [reflexivity|].
  apply (analyzeText_empty_input None email (str "") half initial).
  reflexivity.
Defined.

Lemma analyzeText_whitespace_input_witness :
  Forall (fun c => JsString.isWhiteSpace c = true) blanks /\
  let st' := exec (analyzeText None email blanks half) initial in
  st' = exec (analyzeText None email [] half) initial /\
  sent st' = sent initial /\ in_flight st' = in_flight initial /\
  analysis st' = None /\ showWarning st' = false /\ error st' = None.
Proof.
  assert (W : Forall (fun c => JsString.isWhiteSpace c = true) blanks)
    by (repeat constructor).
  split; [exact W|].
  apply (analyzeText_whitespace_input None email blanks half initial W).
Defined.

Lemma failed_request_shows_retry_banner_witness :
  name TimeoutError <> str "AbortError" /\
  (exists f,
     In f (in_flight (run None [Call email (str "hello") half] initial)) /\
     waits_on 0 f = true) /\
  let st' := exec (step None (Settle 0 (Rejected TimeoutError)))
               (run None [Call email (str "hello") half] initial) in
  error st' = Some (str "Analysis failed: timeout of 10000ms exceeded") /\
  analysis st' = None /\
  showWarning st' = false /\
  errorBanner (render true st') =
    Some (mkBanner (str "Analysis failed: timeout of 10000ms exceeded")
            (str "Retry") testConnection) /\
  results (render true st') = None /\
  warningAlert (render true st') = false.
Proof.
  assert (N : name TimeoutError <> str "AbortError") by discriminate.
  assert (F : exists f,
     In f (in_flight (run None [Call email (str "hello") half] initial)) /\
     waits_on 0 f = true).
  { eexists. split; [left; reflexivity | reflexivity]. }
  split; [exact N|]. split; [exact F|].
  apply (failed_request_shows_retry_banner None
           [Call email (str "hello") half] 0 TimeoutError true N F).
Defined.

Lemma monitoring_log_entry_witness :
  isMonitoring (closure awaited_hello) = true /\
  exists entry rest,
    monitoringLogs (exec (analyzeText_resume awaited_hello (Resolved risky))
                      initial) = entry :: rest /\
    timestamp entry = clock initial /\
    app entry = str "Email" /\
    regretScore entry = (7 # 10)%Q /\
    warned entry = true /\
    text entry = str "hello" /\
    (50 < List.length (str "hello") ->
     text entry = firstn 50 (str "hello") ++ str "...") /\
    (List.length (str "hello") <= 50 -> text entry = str "hello").
Proof.
  split; [reflexivity|].
  apply (monitoring_log_entry awaited_hello risky initial). reflexivity.
Defined.

(** *** A superseded request

    axios rejects an aborted request with its [CanceledError], whose name is
    not the "AbortError" the [catch] block looks for; the block therefore
    runs in full for the request that was superseded. *)

(** C4 (not met by the code): the next call aborts the request that is
    awaited, and the cancellation is not silent: the error state is set to
    "Analysis failed: canceled", the analysis and the warning flag, which
    held the last result, are cleared, and the page shows the error banner. *)
Theorem superseded_request_raises_error_banner :
  let before := run None typing initial in
  let after := exec (step None (Call email (str "you are a f") half)) before in
  (analysis before = Some risky /\ showWarning before = true /\
   error before = None /\
   map (fun f => signal (config (request f))) (in_flight before) = [1]) /\
  (aborted after = 1 :: aborted before /\
   map (fun f => signal (config (request f))) (in_flight after) = [2] /\
   error after = Some (str "Analysis failed: canceled") /\
   analysis after = None /\ showWarning after = false /\
   errorBanner (render true after) =
     Some (mkBanner (str "Analysis failed: canceled") (str "Retry")
             testConnection)).
Proof.
  vm_compute. repeat split.
Qed.

(** C5 (not met by the code): the request for "you are a" is superseded by
    the one for "you are a f"; its failure is written to the error state
    after the new request has gone out, and it is still there, next to the
    result for the newer text, when that result has arrived. *)
Theorem cancelled_request_failure_is_displayed :
  let superseded :=
    run None (typing ++ [Call email (str "you are a f") half]) initial in
  let answered := exec (step None (Settle 2 (Resolved risky))) superseded in
  (error (run None typing initial) = None /\
   error superseded = Some (str "Analysis failed: canceled") /\
   analysis superseded = None) /\
  (analysis answered = Some risky /\
   in_flight answered = [] /\
   error answered = Some (str "Analysis failed: canceled") /\
   errorBanner (render true answered) =
     Some (mkBanner (str "Analysis failed: canceled") (str "Retry")
             testConnection)).
Proof.
  vm_compute. repeat split.
Qed.

Lemma abort_error_is_ignored_witness :
  name fetchAbortError = str "AbortError" /\
  exec (analyzeText_resume awaited_hello (Rejected fetchAbortError))
    (run None typing initial)
  = mkState (Some risky) false true
      (monitoringLogs (run None typing initial)) None (Some 1) 2 [0]
      (in_flight (run None typing initial)) (sent (run None typing initial))
      [] [].
Proof.
  split; [reflexivity|].
  apply (abort_error_is_ignored awaited_hello fetchAbortError
           (run None typing initial)).
  reflexivity.
Defined.

Lemma superseded_response_is_dropped_witness :
  In awaited_hello (in_flight (run None [Call email (str "hello") half] initial)) /\
  JsString.trim (str "hello!") <> [] /\
  let st' := exec (step None (Call email (str "hello!") half))
               (run None [Call email (str "hello") half] initial) in
  exec (step None (Settle 0 (Resolved risky))) st' = st'.
Proof.
  assert (H1 : In awaited_hello
                 (in_flight (run None [Call email (str "hello") half] initial)))
    by (left; reflexivity).
  assert (H2 : JsString.trim (str "hello!") <> []) by discriminate.
  split; [exact H1|]. split; [exact H2|].
  apply (superseded_response_is_dropped None
           [Call email (str "hello") half] email (str "hello!") half
           awaited_hello (Resolved risky) H1 H2).
Defined.

Lemma blank_input_leaves_request_running_witness :
  In awaited_hello (in_flight (run None [Call email (str "hello") half] initial)) /\
  waits_on 0 awaited_hello = true /\
  JsString.trim [] = [] /\
  let st := run None [Call email (str "hello") half] initial in
  let st1 := exec (step None (Call email [] half)) st in
  let st2 := exec (step None (Settle 0 (Resolved risky))) st1 in
  in_flight st1 = in_flight st /\ aborted st1 = aborted st /\
  analysis st1 = None /\
  analysis st2 = Some risky /\ showWarning st2 = true.
Proof.
  assert (H1 : In awaited_hello
                 (in_flight (run None [Call email (str "hello") half] initial)))
    by (left; reflexivity).
  split; [exact H1|]. split; [reflexivity|]. split; [reflexivity|].
  apply (blank_input_leaves_request_running None
           [Call email (str "hello") half] email [] half awaited_hello 0 risky
           H1 eq_refl eq_refl).
Defined.

(** * Further properties of the event loop *)

Section EventLoop.

Variable env : option jsstring.

(** *** Properties of the result kept through every event *)

Lemma analyzeText_result_fields cl txt thr st :
  JsString.trim txt <> [] ->
  let st' := exec (analyzeText env cl txt thr) st in
  analysis st' = analysis st /\ showWarning st' = showWarning st /\
  monitoringLogs st' = monitoringLogs st.
Proof.
  intros E. cbv zeta. rewrite (analyzeText_not_blank env _ _ _ E).
  unfold cancelPrevious.
  unfold exec, bind, current, abort, ret, newAbortController,
    setCurrent, setLoading, setError, post; simpl.
  destruct (abortControllerRef st); simpl; repeat split.
Qed.

Section Preserved.

Variable P : State -> Prop.
Hypothesis P_result : on_result P.
Hypothesis P_cleared : forall st, P st -> P (cleared st).
Hypothesis P_resume :
  forall f o st, P st -> P (exec (analyzeText_resume f o) st).

Lemma resumeAll_preserves js st : P st -> P (exec (resumeAll js) st).
Proof.
  revert st; induction js as [| [f o] js IH]; intros st H; simpl; [exact H|].
  rewrite exec_bind. apply IH, P_resume, H.
Qed.

Lemma runJobs_preserves st : P st -> P (exec runJobs st).
Proof.
  intros H. unfold runJobs. rewrite exec_bind. apply resumeAll_preserves.
  apply (P_result st); [reflexivity | reflexivity | reflexivity | exact H].
Qed.

Lemma step_preserves e st : P st -> P (exec (step env e) st).
Proof.
  intros H. destruct e as [cl txt thr | c o | | failure | now]; simpl.
  - rewrite exec_bind. apply runJobs_preserves.
    fold (exec (analyzeText env cl txt thr) st).
    destruct (list_eq_dec N.eq_dec (JsString.trim txt) []) as [E | E].
    + rewrite (analyzeText_blank env _ _ _ _ E). apply P_cleared, H.
    + destruct (analyzeText_result_fields cl txt thr st E) as (A1 & A2 & A3).
      apply (P_result st); assumption.
  - rewrite exec_bind.
    set (fs := fst (complete c st)). set (st1 := snd (complete c st)).
    rewrite exec_bind. apply runJobs_preserves.
    fold (exec (resumeAll (map (fun f => (f, o)) fs)) st1).
    apply resumeAll_preserves.
    apply (P_result st); [reflexivity | reflexivity | reflexivity | exact H].
  - rewrite exec_bind. apply runJobs_preserves.
    apply (P_result st); [reflexivity | reflexivity | reflexivity | exact H].
  - rewrite exec_bind. apply runJobs_preserves.
    apply (P_result st); [| | | exact H]; destruct failure; reflexivity.
  - apply (P_result st); [reflexivity | reflexivity | reflexivity | exact H].
Qed.

Lemma run_preserves es st : P st -> P (run env es st).
Proof.
  revert st; induction es as [| e es IH]; intros st H; simpl; [exact H|].
  apply IH, step_preserves, H.
Qed.

End Preserved.

Lemma warning_synced_run es : warning_synced (run env es initial).
Proof.
  apply run_preserves.
  - intros st st' A W _ H. unfold warning_synced in *. rewrite A, W. exact H.
  - intros st _. reflexivity.
  - intros f [d | e] st H.
    + rewrite resume_resolved. reflexivity.
    + unfold analyzeText_resume.
      destruct (JsString.eqb (name e) (str "AbortError")); [exact H | reflexivity].
  - reflexivity.
Qed.

(** X4: in every state the component can reach, the warning alert is on the
    page exactly when the analysis on the page says [should_warn]; with no
    analysis there is no alert. *)
Theorem warning_alert_follows_analysis es monitoring :
  let st := run env es initial in
  warningAlert (render monitoring st) =
    match analysis st with
    | Some d => Api.should_warn d
    | None => false
    end.
Proof.
  intros st. pose proof (warning_synced_run es) as H. fold st in H.
  unfold render; simpl. rewrite H. destruct (analysis st); simpl.
  - apply andb_true_r.
  - reflexivity.
Qed.

Lemma truncated_length txt : List.length (truncated txt) <= 53.
Proof.
  unfold truncated, JsString.slice0. rewrite length_app.
  pose proof (firstn_le_length 50 txt).
  destruct (Nat.ltb 50 (List.length txt)).
  - change (List.length (str "...")) with 3. lia.
  - cbn [List.length]. lia.
Qed.

Lemma Forall_firstn_keep {A} (Q : A -> Prop) n (l : list A) :
  Forall Q l -> Forall Q (firstn n l).
Proof.
  intros H. rewrite <- (firstn_skipn n l) in H.
  apply Forall_app in H. exact (proj1 H).
Qed.

(** X5: every entry of the monitoring log holds at most 53 code units of
    text (50 of the analysed text and the three dots), however long the
    texts analysed were. *)
Theorem monitoring_log_texts_are_short es :
  Forall (fun entry => List.length (text entry) <= 53)
    (monitoringLogs (run env es initial)).
Proof.
  apply (run_preserves
           (fun st => Forall (fun entry => List.length (text entry) <= 53)
                        (monitoringLogs st))).
  - intros st st' _ _ L H. rewrite L. exact H.
  - intros st H. exact H.
  - intros f [d | e] st H.
    + rewrite resume_resolved. cbn [monitoringLogs].
      destruct (isMonitoring (closure f)); [| exact H].
      constructor; [apply truncated_length | apply Forall_firstn_keep, H].
    + unfold analyzeText_resume.
      destruct (JsString.eqb (name e) (str "AbortError")); exact H.
  - constructor.
Qed.

(** *** The requests sent *)

Lemma step_sent_world e st :
  single_flight st ->
  let st' := exec (step env e) st in
  (sent st' = sent st /\ controllers st' = controllers st) \/
  exists txt thr,
    JsString.trim txt <> [] /\
    sent st' = sent st ++ [analyze_request env txt thr (controllers st)] /\
    controllers st' = S (controllers st).
Proof.
  intros I. destruct e as [cl txt thr | c o | | failure | now]; cbv zeta.
  - destruct (list_eq_dec N.eq_dec (JsString.trim txt) []) as [E | E].
    + left. rewrite (step_call_blank env _ _ _ _ I E). split; reflexivity.
    + right. exists txt, thr. split; [exact E|].
      destruct (step_call_world env cl txt thr st I E) as (_ & _ & W3 & _).
      split; [| exact W3].
      simpl. rewrite exec_bind. fold (exec (analyzeText env cl txt thr) st).
      destruct (runJobs_spec (exec (analyzeText env cl txt thr) st))
        as (_ & _ & _ & R4 & _).
      destruct (analyzeText_issue env cl txt thr st E I) as (_ & _ & Q3 & _).
      rewrite R4. exact Q3.
  - left. destruct (step_settle_world env c o st) as [_ W2].
    split; [| exact W2].
    destruct (step_sent env (Settle c o) st I) as [H | (txt & thr & k & H)];
      [exact H|].
    exfalso. simpl in H. rewrite exec_bind in H.
    set (fs := fst (complete c st)) in H.
    set (st1 := snd (complete c st)) in H.
    rewrite exec_bind in H.
    fold (exec (resumeAll (map (fun f => (f, o)) fs)) st1) in H.
    destruct (runJobs_spec (exec (resumeAll (map (fun f => (f, o)) fs)) st1))
      as (_ & _ & _ & R4 & _).
    destruct (resumeAll_same_world (map (fun f => (f, o)) fs) st1)
      as (_ & _ & _ & _ & a5 & _).
    rewrite R4, a5 in H. simpl in H.
    apply (f_equal (@List.length Request)) in H.
    rewrite length_app in H. simpl in H. lia.
  - left. rewrite (step_connect env st I). split; reflexivity.
  - left. rewrite (step_connected env _ st I).
    destruct failure; split; reflexivity.
  - left. split; reflexivity.
Qed.

Lemma run_sent_world es st :
  single_flight st ->
  Forall (fun r => exists txt thr c,
            r = analyze_request env txt thr c /\ JsString.trim txt <> [])
    (sent st) ->
  map (fun r => signal (config r)) (sent st) = seq 0 (controllers st) ->
  let st' := run env es st in
  Forall (fun r => exists txt thr c,
            r = analyze_request env txt thr c /\ JsString.trim txt <> [])
    (sent st') /\
  map (fun r => signal (config r)) (sent st') = seq 0 (controllers st').
Proof.
  revert st; induction es as [| e es IH]; intros st I F S0; simpl;
    [split; assumption|].
  apply IH; [apply step_single_flight, I | |];
    destruct (step_sent_world e st I) as [[H1 H2] | (txt & thr & E & H1 & H2)].
  - rewrite H1. exact F.
  - rewrite H1. apply Forall_app. split; [exact F|].
    constructor; [| constructor]. exists txt, thr, (controllers st).
    split; [reflexivity | exact E].
  - rewrite H1, H2. exact S0.
  - rewrite H1, H2, map_app, S0, seq_S. reflexivity.
Qed.

(** X6: no analysis request is ever sent for a blank text: every request the
    component has sent carries a text whose trimmed form is not empty. *)
Theorem blank_text_is_never_sent es :
  Forall (fun r => exists txt thr c,
            r = analyze_request env txt thr c /\
            data r = [(str "text", JStr txt); (str "threshold", JNum thr)] /\
            JsString.trim txt <> [])
    (sent (run env es initial)).
Proof.
  destruct (run_sent_world es initial initial_single_flight)
    as [F _]; [constructor | reflexivity |].
  eapply Forall_impl; [| exact F].
  intros r (txt & thr & c & -> & E). exists txt, thr, c. repeat split.
  exact E.
Qed.

(** X7: every analysis request gets an abort controller of its own: the
    signals of the requests sent are, in order, those of the first, second,
    ... controller constructed, so no two requests share one and a
    controller is constructed only to send a request. *)
Theorem one_controller_per_request es :
  let st := run env es initial in
  map (fun r => signal (config r)) (sent st) = seq 0 (controllers st) /\
  NoDup (map (fun r => signal (config r)) (sent st)) /\
  List.length (sent st) = controllers st.
Proof.
  intros st.
  destruct (run_sent_world es initial initial_single_flight)
    as [_ S0]; [constructor | reflexivity |].
  fold st in S0. split; [exact S0|]. split.
  - rewrite S0. apply seq_NoDup.
  - rewrite <- (length_map (fun r => signal (config r))), S0.
    apply length_seq.
Qed.

End EventLoop.

(** * Properties of the whole component *)

Section Page.

Variable env : option jsstring.

(** A render and its effects leave the state variables as the update set
    them; only the timeout, the stored item and the class may change. *)
Lemma rerender_fields prev next :
  let c := rerender prev next in
  App.core c = App.core next /\ App.text c = App.text next /\
  App.threshold c = App.threshold next /\ App.userId c = App.userId next /\
  App.analytics c = App.analytics next /\
  App.selectedApp c = App.selectedApp next /\
  App.isMonitoring c = App.isMonitoring next /\
  App.darkMode c = App.darkMode next /\
  App.settingsOpen c = App.settingsOpen next /\
  App.requests c = App.requests next.
Proof.
  unfold rerender, darkModeEffect, debounceEffect.
  destruct (debounce_deps_same prev next);
    match goal with |- context [Bool.eqb ?a ?b] => destruct (Bool.eqb a b) end;
    repeat split.
Qed.

Lemma run_snoc tr e st :
  run env (tr ++ [e]) st = exec (step env e) (run env tr st).
Proof.
  revert st; induction tr as [| e0 tr IH]; intros st; simpl; [reflexivity|].
  apply IH.
Qed.

(** On the analysis state a page event is nothing, or one event of the
    loop. *)
Lemma handle_core e c :
  App.core (handle env e c) = App.core c \/
  exists e', App.core (handle env e c) = exec (step env e') (App.core c).
Proof.
  destruct e as [v | v | | i | | | | | | k o | failure | [a |] | now];
    unfold handle;
    try (left; reflexivity);
    try (right; eexists; reflexivity).
  - left. rewrite (proj1 (rerender_fields c _)). reflexivity.
  - left. unfold handleThresholdChange.
    rewrite (proj1 (rerender_fields c _)).
    destruct (Qeq_bool (App.threshold c) v); reflexivity.
  - left. rewrite (proj1 (rerender_fields c _)). reflexivity.
  - left. destruct (nth_error SIMULATED_APPS i); [| reflexivity].
    unfold onSelectApp. destruct (find_app _); [| reflexivity].
    rewrite (proj1 (rerender_fields c _)). reflexivity.
  - left. destruct (App.settingsOpen c); [| reflexivity].
    rewrite (proj1 (rerender_fields c _)). reflexivity.
  - unfold onRetry. destruct (errorBanner _); [| left; reflexivity].
    right. eexists. reflexivity.
  - unfold timeout_fires.
    destruct (App.debounceTimer c) as [[[cl t] th] |]; [| left; reflexivity].
    right. eexists. reflexivity.
Qed.

Lemma session_core_run es c :
  (exists tr, App.core c = run env tr initial) ->
  exists tr, App.core (session env es c) = run env tr initial.
Proof.
  revert c; induction es as [| e es IH]; intros c [tr H]; simpl.
  - exists tr. exact H.
  - apply IH. destruct (handle_core e c) as [E | [e' E]]; rewrite E.
    + exists tr. exact H.
    + exists (tr ++ [e']). rewrite run_snoc, H. reflexivity.
Qed.

Lemma mount_core_run w uid :
  exists tr, App.core (mount env w uid) = run env tr initial.
Proof.
  exists [Connect]. simpl.
  symmetry. apply (step_connect env initial initial_single_flight).
Qed.

(** X8: whatever happens on the page, the analysis part of its state is one
    the event loop of [analyzeText] reaches from the first render: the
    debounce timeout, the handlers and the other requests add no behaviour
    to it. *)
Theorem page_refines_event_loop es w uid :
  exists trace,
    App.core (session env es (mount env w uid)) = run env trace initial.
Proof.
  apply session_core_run, mount_core_run.
Qed.

Lemma session_single_flight es w uid :
  single_flight (App.core (session env es (mount env w uid))).
Proof.
  destruct (session_core_run es _ (mount_core_run w uid)) as [tr ->].
  apply run_single_flight, initial_single_flight.
Qed.

(** *** The debounce timeout *)

Lemma SimulatedApp_eqb_eq a b : SimulatedApp_eqb a b = true -> a = b.
Proof.
  destruct a as [n1 p1], b as [n2 p2]. unfold SimulatedApp_eqb; simpl.
  rewrite andb_true_iff, !JsStringFacts.eqb_eq. intros [-> ->]. reflexivity.
Qed.

Lemma SimulatedApp_eqb_refl a : SimulatedApp_eqb a a = true.
Proof.
  unfold SimulatedApp_eqb.
  rewrite !(proj2 (JsStringFacts.eqb_eq _ _) eq_refl). reflexivity.
Qed.

Lemma timer_current_keep p n :
  timer_current p ->
  App.debounceTimer n = App.debounceTimer p ->
  App.callback n = App.callback p ->
  App.text n = App.text p ->
  App.threshold n = App.threshold p ->
  timer_current n.
Proof.
  intros H T C X Y cl t th E. rewrite T in E. rewrite C, X, Y. apply H, E.
Qed.

Lemma rerender_timer_current p n :
  timer_current p ->
  App.debounceTimer n = App.debounceTimer p ->
  (debounce_deps_same p n = true ->
   App.callback n = App.callback p /\ App.text n = App.text p /\
   App.threshold n = App.threshold p) ->
  timer_current (rerender p n).
Proof.
  intros H T D. unfold rerender, debounceEffect.
  destruct (debounce_deps_same p n) eqn:S.
  - destruct (D eq_refl) as (C & X & Y).
    apply (timer_current_keep p); try assumption;
      unfold darkModeEffect; destruct (Bool.eqb _ _); assumption.
  - unfold darkModeEffect.
    match goal with |- context [Bool.eqb ?a ?b] => destruct (Bool.eqb a b) end;
      intros cl t th E; simpl in E; injection E as <- <- <-; repeat split.
Qed.

Lemma mount_timer_current w uid : timer_current (mount env w uid).
Proof.
  intros cl t th E. simpl in E. injection E as <- <- <-. repeat split.
Qed.

Lemma handle_timer_current e c :
  timer_current c -> timer_current (handle env e c).
Proof.
  intros H.
  destruct e as [v | v | | i | | | | | | k o | failure | [a |] | now];
    unfold handle;
    try (apply (timer_current_keep c); [exact H | reflexivity ..]);
    try exact H.
  - (* text *)
    apply rerender_timer_current; [exact H | reflexivity |].
    unfold debounce_deps_same; simpl. rewrite !andb_true_iff.
    intros [[[E _] _] _]. apply JsStringFacts.eqb_eq in E.
    repeat split. symmetry; exact E.
  - (* threshold *)
    unfold handleThresholdChange.
    destruct (Qeq_bool (App.threshold c) v) eqn:Q.
    + apply rerender_timer_current; [exact H | reflexivity |].
      intros _. repeat split.
    + apply rerender_timer_current; [exact H | reflexivity |].
      unfold debounce_deps_same; simpl. rewrite Q, andb_false_r. discriminate.
  - (* monitoring *)
    apply rerender_timer_current; [exact H | reflexivity |].
    unfold debounce_deps_same; simpl.
    destruct (App.isMonitoring c); simpl; rewrite andb_false_r; discriminate.
  - (* app *)
    destruct (nth_error SIMULATED_APPS i); [| exact H].
    unfold onSelectApp. destruct (find_app _) as [a |]; [| exact H].
    apply rerender_timer_current; [exact H | reflexivity |].
    unfold debounce_deps_same; simpl. rewrite !andb_true_iff.
    intros [[_ E] _]. apply SimulatedApp_eqb_eq in E.
    unfold App.callback; simpl. rewrite <- E. repeat split.
  - (* dark mode *)
    destruct (App.settingsOpen c); [| exact H].
    apply rerender_timer_current; [exact H | reflexivity |].
    intros _. repeat split.
  - (* retry *)
    unfold onRetry. destruct (errorBanner _); [| exact H].
    apply (timer_current_keep c); [exact H | reflexivity ..].
  - (* timeout *)
    unfold timeout_fires.
    destruct (App.debounceTimer c) as [[[cl t] th] |]; [| exact H].
    intros cl' t' th' E. discriminate E.
Qed.

Lemma session_timer_current es c :
  timer_current c -> timer_current (session env es c).
Proof.
  revert c; induction es as [| e es IH]; intros c H; simpl; [exact H|].
  apply IH, handle_timer_current, H.
Qed.

(** X9: when the debounce timeout fires, [analyzeText] is called with the
    text and the threshold that are on the page at that moment and with the
    application and the monitoring switch of that moment; an older text is
    never analysed.  The timeout is then spent. *)
Theorem timeout_analyzes_what_is_on_the_page es w uid :
  let c := session env es (mount env w uid) in
  App.core (handle env TimeoutFires c) =
    match App.debounceTimer c with
    | Some _ =>
        exec (step env (Call (App.callback c) (App.text c) (App.threshold c)))
          (App.core c)
    | None => App.core c
    end /\
  App.debounceTimer (handle env TimeoutFires c) = None.
Proof.
  intros c.
  assert (H : timer_current c)
    by (apply session_timer_current, mount_timer_current).
  unfold handle, timeout_fires.
  destruct (App.debounceTimer c) as [[[cl t] th] |] eqn:E.
  - destruct (H cl t th E) as (-> & -> & ->). split; reflexivity.
  - split; [reflexivity | exact E].
Qed.

Lemma step_settle_sent k o st :
  sent (exec (step env (Settle k o)) st) = sent st.
Proof.
  simpl. rewrite exec_bind.
  set (fs := fst (complete k st)). set (st1 := snd (complete k st)).
  rewrite exec_bind. fold (exec (resumeAll (map (fun f => (f, o)) fs)) st1).
  destruct (runJobs_spec (exec (resumeAll (map (fun f => (f, o)) fs)) st1))
    as (_ & _ & _ & R4 & _).
  destruct (resumeAll_same_world (map (fun f => (f, o)) fs) st1)
    as (_ & _ & _ & _ & a5 & _).
  rewrite R4, a5. reflexivity.
Qed.

Lemma timer_armed_le c : timer_armed c <= 1.
Proof. unfold timer_armed. destruct (App.debounceTimer c); lia. Qed.

Lemma Qeq_bool_refl q : Qeq_bool q q = true.
Proof. apply Qeq_bool_iff, Qeq_refl. Qed.

Lemma rerender_timer_same p n :
  debounce_deps_same p n = true ->
  App.debounceTimer (rerender p n) = App.debounceTimer n.
Proof.
  intros D. unfold rerender, debounceEffect. rewrite D.
  unfold darkModeEffect. destruct (Bool.eqb _ _); reflexivity.
Qed.

Lemma handle_single_flight e c :
  single_flight (App.core c) -> single_flight (App.core (handle env e c)).
Proof.
  intros I. destruct (handle_core e c) as [-> | [e' ->]]; [exact I|].
  apply step_single_flight, I.
Qed.

(** One event: a request needs the timeout to fire, and a timeout needs an
    edit to be armed. *)
Lemma handle_counts e c :
  single_flight (App.core c) ->
  let c' := handle env e c in
  List.length (sent (App.core c'))
    <= List.length (sent (App.core c)) + (if is_timeout e then 1 else 0) /\
  List.length (sent (App.core c')) + timer_armed c'
    <= List.length (sent (App.core c)) + timer_armed c
       + (if is_edit e then 1 else 0).
Proof.
  intros I c'. subst c'.
  assert (Edit : forall n,
            App.core n = App.core c ->
            List.length (sent (App.core (rerender c n)))
              <= List.length (sent (App.core c)) + 0 /\
            List.length (sent (App.core (rerender c n)))
              + timer_armed (rerender c n)
              <= List.length (sent (App.core c)) + timer_armed c + 1).
  { intros n E. rewrite (proj1 (rerender_fields c n)), E.
    pose proof (timer_armed_le (rerender c n)). lia. }
  destruct e as [v | v | | i | | | | | | k o | failure | [a |] | now];
    unfold handle, is_timeout, is_edit.
  - apply Edit. reflexivity.
  - unfold handleThresholdChange. apply Edit.
    destruct (Qeq_bool (App.threshold c) v); reflexivity.
  - apply Edit. reflexivity.
  - destruct (nth_error SIMULATED_APPS i); [| lia].
    unfold onSelectApp. destruct (find_app _); [| lia].
    apply Edit. reflexivity.
  - unfold timer_armed; simpl. lia.
  - unfold timer_armed; simpl. lia.
  - destruct (App.settingsOpen c); [| lia].
    rewrite (proj1 (rerender_fields c _)).
    unfold timer_armed. rewrite rerender_timer_same; [simpl; lia|].
    unfold debounce_deps_same; simpl.
    rewrite (proj2 (JsStringFacts.eqb_eq _ _) eq_refl), Qeq_bool_refl,
      SimulatedApp_eqb_refl, eqb_reflx. reflexivity.
  - unfold onRetry. destruct (errorBanner _); [| lia].
    unfold timer_armed. cbn [App.core App.debounceTimer App.with_core App.with_debounceTimer
           App.with_requests send].
    rewrite (step_connect env _ I). simpl. lia.
  - unfold timeout_fires, timer_armed.
    destruct (App.debounceTimer c) as [[[cl t] th] |] eqn:T;
      [| simpl; rewrite T; lia].
    cbn [App.core App.debounceTimer App.with_core App.with_debounceTimer
           App.with_requests send].
    destruct (step_sent_world env (Call cl t th) (App.core c) I)
      as [[-> _] | (txt & thr & _ & -> & _)];
      rewrite ?length_app; simpl; lia.
  - unfold timer_armed. cbn [App.core App.debounceTimer App.with_core App.with_debounceTimer
           App.with_requests send].
    rewrite step_settle_sent. lia.
  - unfold timer_armed. cbn [App.core App.debounceTimer App.with_core App.with_debounceTimer
           App.with_requests send].
    rewrite (step_connected env _ _ I). destruct failure; simpl; lia.
  - unfold timer_armed; simpl. lia.
  - lia.
  - unfold timer_armed; simpl. lia.
Qed.

Lemma session_counts es c :
  single_flight (App.core c) ->
  let c' := session env es c in
  List.length (sent (App.core c'))
    <= List.length (sent (App.core c)) + List.length (filter is_timeout es) /\
  List.length (sent (App.core c')) + timer_armed c'
    <= List.length (sent (App.core c)) + timer_armed c
       + List.length (filter is_edit es).
Proof.
  revert c; induction es as [| e es IH]; intros c I; simpl; [lia|].
  destruct (handle_counts e c I) as [H1 H2].
  destruct (IH _ (handle_single_flight e c I)) as [G1 G2].
  destruct (is_timeout e), (is_edit e); simpl; lia.
Qed.

(** X10: analysis requests are debounced.  At most one request is sent for
    each firing of the timeout, and the requests sent, with the timeout that
    is armed if one is, never outnumber the edits made to the text, the
    threshold, the application or the monitoring switch by more than the
    timeout of the first render: typing sends nothing by itself. *)
Theorem requests_are_debounced es w uid :
  let c := session env es (mount env w uid) in
  List.length (sent (App.core c)) <= List.length (filter is_timeout es) /\
  List.length (sent (App.core c)) + timer_armed c
    <= 1 + List.length (filter is_edit es).
Proof.
  intros c.
  assert (I : single_flight (App.core (mount env w uid))).
  { destruct (mount_core_run w uid) as [tr ->].
    apply run_single_flight, initial_single_flight. }
  destruct (session_counts es _ I) as [H1 H2]. fold c in H1, H2.
  simpl in H1, H2. split; [exact H1 | exact H2].
Qed.

(** *** Dark mode *)

Lemma rerender_dark p n :
  dark_synced p ->
  App.localStorage n = App.localStorage p ->
  App.htmlDark n = App.htmlDark p ->
  dark_synced (rerender p n).
Proof.
  intros [S1 S2] L H. unfold rerender, darkModeEffect.
  assert (D : App.darkMode (debounceEffect p n) = App.darkMode n
              /\ App.localStorage (debounceEffect p n) = App.localStorage n
              /\ App.htmlDark (debounceEffect p n) = App.htmlDark n).
  { unfold debounceEffect. destruct (debounce_deps_same p n); repeat split. }
  destruct D as (D1 & D2 & D3).
  destruct (Bool.eqb (App.darkMode p) (App.darkMode (debounceEffect p n)))
    eqn:E.
  - apply eqb_prop in E. split.
    + rewrite D2, L, S1, E. reflexivity.
    + rewrite D3, H, S2, E. reflexivity.
  - split; reflexivity.
Qed.

Lemma handle_dark e c : dark_synced c -> dark_synced (handle env e c).
Proof.
  intros H.
  destruct e as [v | v | | i | | | | | | k o | failure | [a |] | now];
    unfold handle; try exact H;
    try (apply rerender_dark; [exact H | reflexivity | reflexivity]).
  - unfold handleThresholdChange.
    apply rerender_dark; [exact H | |];
      destruct (Qeq_bool (App.threshold c) v); reflexivity.
  - destruct (nth_error SIMULATED_APPS i); [| exact H].
    unfold onSelectApp. destruct (find_app _); [| exact H].
    apply rerender_dark; [exact H | reflexivity | reflexivity].
  - destruct (App.settingsOpen c); [| exact H].
    destruct H as [S1 S2]. unfold rerender, debounceEffect.
    destruct (debounce_deps_same _ _); unfold darkModeEffect; simpl;
      rewrite eqb_negb2; split; reflexivity.
  - unfold onRetry. destruct (errorBanner _); exact H.
  - unfold timeout_fires.
    destruct (App.debounceTimer c) as [[[cl t] th] |]; exact H.
Qed.

Lemma session_dark es c : dark_synced c -> dark_synced (session env es c).
Proof.
  revert c; induction es as [| e es IH]; intros c H; simpl; [exact H|].
  apply IH, handle_dark, H.
Qed.

(** X11: the dark-mode choice survives a reload.  At every moment the
    stored item and the class of the document agree with [darkMode], so
    [getInitialDarkMode], read from what the page left in the storage,
    gives back the mode the page was in, whatever the system prefers. *)
Theorem dark_mode_survives_reload es w uid prefers :
  let c := session env es (mount env w uid) in
  getInitialDarkMode (Some (mkWindow (App.localStorage c) prefers))
    = App.darkMode c /\
  App.htmlDark c = App.darkMode c.
Proof.
  intros c.
  assert (H : dark_synced c).
  { apply session_dark. split; reflexivity. }
  destruct H as [S1 S2]. split; [| exact S2].
  unfold getInitialDarkMode; simpl. rewrite S1.
  destruct (App.darkMode c); reflexivity.
Qed.

(** *** The other requests *)

(** What an event adds to the log of the other requests. *)
Lemma handle_requests e c :
  let c' := handle env e c in
  App.userId c' = App.userId c /\
  ((App.requests c' = App.requests c /\ App.threshold c' = App.threshold c) \/
   (App.requests c' = App.requests c ++ [health env] /\
    App.threshold c' = App.threshold c) \/
   exists v,
     App.requests c' = App.requests c ++ [saveSettings env (App.userId c) v] /\
     (v == App.threshold c')%Q).
Proof.
  destruct e as [v | v | | i | | | | | | k o | failure | [a |] | now];
    unfold handle; cbv zeta;
    try (split; [reflexivity | left; split; reflexivity]).
  - destruct (rerender_fields c (App.setText v c))
      as (_ & _ & T & U & _ & _ & _ & _ & _ & R).
    rewrite T, U, R. split; [reflexivity | left; split; reflexivity].
  - unfold handleThresholdChange.
    match goal with |- context [rerender c ?n] =>
      destruct (rerender_fields c n) as (_ & _ & T & U & _ & _ & _ & _ & _ & R)
    end.
    rewrite T, U, R.
    destruct (Qeq_bool (App.threshold c) v) eqn:Q; simpl.
    + split; [reflexivity|]. right; right. exists v. split; [reflexivity|].
      apply Qeq_sym, Qeq_bool_iff, Q.
    + split; [reflexivity|]. right; right. exists v. split; [reflexivity|].
      apply Qeq_refl.
  - match goal with |- context [rerender c ?n] =>
      destruct (rerender_fields c n) as (_ & _ & T & U & _ & _ & _ & _ & _ & R)
    end.
    rewrite T, U, R. split; [reflexivity | left; split; reflexivity].
  - destruct (nth_error SIMULATED_APPS i);
      [| split; [reflexivity | left; split; reflexivity]].
    unfold onSelectApp.
    destruct (find_app _);
      [| split; [reflexivity | left; split; reflexivity]].
    match goal with |- context [rerender c ?n] =>
      destruct (rerender_fields c n) as (_ & _ & T & U & _ & _ & _ & _ & _ & R)
    end.
    rewrite T, U, R. split; [reflexivity | left; split; reflexivity].
  - destruct (App.settingsOpen c);
      [| split; [reflexivity | left; split; reflexivity]].
    match goal with |- context [rerender c ?n] =>
      destruct (rerender_fields c n) as (_ & _ & T & U & _ & _ & _ & _ & _ & R)
    end.
    rewrite T, U, R. split; [reflexivity | left; split; reflexivity].
  - unfold onRetry.
    destruct (errorBanner _);
      [| split; [reflexivity | left; split; reflexivity]].
    split; [reflexivity|]. right; left. split; reflexivity.
  - unfold timeout_fires.
    destruct (App.debounceTimer c) as [[[cl t] th] |];
      split; try reflexivity; left; split; reflexivity.
Qed.

Lemma saved_thresholds_app rs rs' :
  saved_thresholds (rs ++ rs') = saved_thresholds rs ++ saved_thresholds rs'.
Proof. apply flat_map_app. Qed.

(** The log after a session: the analytics request first, then health
    checks and settings of this session's user; and the threshold last
    saved is the one on the page. *)
Lemma session_requests es w uid :
  let c := session env es (mount env w uid) in
  App.userId c = uid /\
  (exists rest,
     App.requests c = loadAnalytics env :: rest /\
     Forall (fun r => r = health env \/ exists v, r = saveSettings env uid v)
       rest) /\
  match rev (saved_thresholds (App.requests c)) with
  | [] => App.threshold c = (1 # 2)%Q
  | v :: _ => (v == App.threshold c)%Q
  end.
Proof.
  assert (G : forall es c,
    (App.userId c = uid /\
     (exists rest,
        App.requests c = loadAnalytics env :: rest /\
        Forall (fun r => r = health env \/ exists v, r = saveSettings env uid v)
          rest) /\
     match rev (saved_thresholds (App.requests c)) with
     | [] => App.threshold c = (1 # 2)%Q
     | v :: _ => (v == App.threshold c)%Q
     end) ->
    let c' := session env es c in
    App.userId c' = uid /\
    (exists rest,
       App.requests c' = loadAnalytics env :: rest /\
       Forall (fun r => r = health env \/ exists v, r = saveSettings env uid v)
         rest) /\
    match rev (saved_thresholds (App.requests c')) with
    | [] => App.threshold c' = (1 # 2)%Q
    | v :: _ => (v == App.threshold c')%Q
    end).
  { clear es. induction es as [| e es IH]; intros c H; simpl; [exact H|].
    apply IH. destruct H as (U & (rest & R & F) & L).
    destruct (handle_requests e c) as (U' & [[R' T'] | [[R' T'] | (v & R' & T')]]).
    - rewrite U', R', T'. split; [exact U|]. split; [| exact L].
      exists rest. split; assumption.
    - rewrite U', R', T'. split; [exact U|]. split.
      + exists (rest ++ [health env]). split; [rewrite R; reflexivity|].
        apply Forall_app. split; [exact F|]. constructor; [| constructor].
        left; reflexivity.
      + rewrite saved_thresholds_app. simpl. rewrite app_nil_r. exact L.
    - rewrite U', R'. split; [exact U|]. split.
      + exists (rest ++ [saveSettings env uid v]).
        split; [rewrite R, U; reflexivity|].
        apply Forall_app. split; [exact F|]. constructor; [| constructor].
        right. exists v. reflexivity.
      + rewrite saved_thresholds_app. simpl. rewrite rev_unit. exact T'. }
  apply G. simpl. split; [reflexivity|]. split; [| reflexivity].
  exists [health env]. split; [reflexivity|].
  constructor; [left; reflexivity | constructor].
Qed.

(** X12: what was last saved is what the slider shows.  Every settings
    request carries the user id of the session, and the threshold of the
    last one sent equals the threshold on the page; while none has been
    sent the threshold is still the initial 0.5. *)
Theorem last_saved_threshold_is_current es w uid :
  let c := session env es (mount env w uid) in
  App.userId c = uid /\
  (forall r, In r (App.requests c) -> http_method r = POST ->
     exists v, r = saveSettings env uid v) /\
  match rev (saved_thresholds (App.requests c)) with
  | [] => App.threshold c = (1 # 2)%Q
  | v :: _ => (v == App.threshold c)%Q
  end.
Proof.
  intros c. destruct (session_requests es w uid) as (U & (rest & R & F) & L).
  fold c in U, R, L. split; [exact U|]. split; [| exact L].
  intros r Hr P. rewrite R in Hr. destruct Hr as [<- | Hr]; [discriminate P|].
  destruct (proj1 (Forall_forall _ _) F r Hr) as [-> | H];
    [discriminate P | exact H].
Qed.

(** X13: the analytics are asked for once, by the first render, and never
    again: whatever is analysed afterwards, no second request for them is
    sent, so the statistics on the page are those of the moment the page
    was loaded. *)
Theorem analytics_are_loaded_once es w uid :
  let c := session env es (mount env w uid) in
  exists rest,
    App.requests c = loadAnalytics env :: rest /\
    ~ In (loadAnalytics env) rest.
Proof.
  intros c. destruct (session_requests es w uid) as (_ & (rest & R & F) & _).
  fold c in R. exists rest. split; [exact R|].
  intros Hr. destruct (proj1 (Forall_forall _ _) F _ Hr) as [H | [v H]].
  - apply (f_equal http_url) in H. simpl in H. apply app_inv_head in H.
    vm_compute in H. discriminate H.
  - discriminate H.
Qed.

(** *** What arms the timeout *)

Lemma debounce_deps_same_refl c n :
  App.text n = App.text c -> App.threshold n = App.threshold c ->
  App.selectedApp n = App.selectedApp c ->
  App.isMonitoring n = App.isMonitoring c ->
  debounce_deps_same c n = true.
Proof.
  unfold debounce_deps_same. intros -> -> -> ->.
  rewrite (proj2 (JsStringFacts.eqb_eq _ _) eq_refl), Qeq_bool_refl,
    SimulatedApp_eqb_refl, eqb_reflx. reflexivity.
Qed.

Lemma rerender_timer_armed p n :
  debounce_deps_same p n = false ->
  App.debounceTimer (rerender p n)
    = Some (App.callback n, App.text n, App.threshold n).
Proof.
  intros D. unfold rerender, debounceEffect. rewrite D.
  unfold darkModeEffect. destruct (Bool.eqb _ _); reflexivity.
Qed.

(** X14: the timeout is armed anew, for the text and threshold then on the
    page, by a change of the text, by a threshold that differs in value and
    by the monitoring switch; typing the text that is already there, moving
    the slider to the value it has, opening or closing the settings and
    switching the dark mode leave the timeout as it is. *)
Theorem edits_arm_the_timeout c v q :
  (v <> App.text c ->
   App.debounceTimer (handle env (ChangeText v) c)
     = Some (App.callback c, v, App.threshold c)) /\
  App.debounceTimer (handle env (ChangeText (App.text c)) c)
    = App.debounceTimer c /\
  (~ (q == App.threshold c)%Q ->
   App.debounceTimer (handle env (ChangeThreshold q) c)
     = Some (App.callback c, App.text c, q)) /\
  ((q == App.threshold c)%Q ->
   App.debounceTimer (handle env (ChangeThreshold q) c)
     = App.debounceTimer c) /\
  App.debounceTimer (handle env ToggleMonitoring c)
    = Some (mkClosure (App.selectedApp c) (negb (App.isMonitoring c)),
            App.text c, App.threshold c) /\
  App.debounceTimer (handle env ToggleSettings c) = App.debounceTimer c /\
  App.debounceTimer (handle env CloseSettings c) = App.debounceTimer c /\
  App.debounceTimer (handle env ToggleDarkMode c) = App.debounceTimer c.
Proof.
  repeat split; unfold handle.
  - intros N. rewrite rerender_timer_armed; [reflexivity|].
    unfold debounce_deps_same; simpl.
    rewrite (proj2 (JsStringFacts.eqb_neq _ _)); [reflexivity|].
    intros E. apply N. symmetry; exact E.
  - rewrite rerender_timer_same; [reflexivity|].
    apply debounce_deps_same_refl; reflexivity.
  - intros N. unfold handleThresholdChange.
    destruct (Qeq_bool (App.threshold c) q) eqn:Q.
    + destruct N. apply Qeq_sym, Qeq_bool_iff, Q.
    + rewrite rerender_timer_armed; [reflexivity|].
      unfold debounce_deps_same; simpl. rewrite Q, andb_false_r.
      reflexivity.
  - intros E. unfold handleThresholdChange.
    rewrite (proj2 (Qeq_bool_iff _ _) (Qeq_sym _ _ E)).
    rewrite rerender_timer_same; [reflexivity|].
    apply debounce_deps_same_refl; reflexivity.
  - rewrite rerender_timer_armed; [reflexivity|].
    unfold debounce_deps_same; simpl.
    destruct (App.isMonitoring c); apply andb_false_r.
  - destruct (App.settingsOpen c); [| reflexivity].
    rewrite rerender_timer_same; [reflexivity|].
    apply debounce_deps_same_refl; reflexivity.
Qed.

Lemma find_app_option i a :
  nth_error SIMULATED_APPS i = Some a -> find_app (app_name a) = Some a.
Proof.
  do 5 (destruct i as [| i]; [intros H; injection H as <-; reflexivity|]).
  destruct i; discriminate.
Qed.

(** X15: picking an option of the select makes the entry of
    [SIMULATED_APPS] at that place the selected application (the lookup by
    name finds that very entry), and when it is another application than
    before, the text on the page is set to be analysed again. *)
Theorem select_picks_the_option i a c :
  nth_error SIMULATED_APPS i = Some a ->
  find_app (app_name a) = Some a /\
  App.selectedApp (handle env (SelectApp i) c) = a /\
  App.text (handle env (SelectApp i) c) = App.text c /\
  (a <> App.selectedApp c ->
   App.debounceTimer (handle env (SelectApp i) c)
     = Some (mkClosure a (App.isMonitoring c), App.text c, App.threshold c)) /\
  (a = App.selectedApp c ->
   App.debounceTimer (handle env (SelectApp i) c) = App.debounceTimer c).
Proof.
  intros H. pose proof (find_app_option i a H) as F.
  split; [exact F|]. unfold handle. rewrite H. unfold onSelectApp. rewrite F.
  destruct (rerender_fields c (App.setSelectedApp a c))
    as (_ & T & _ & _ & _ & S & _).
  split; [exact S|]. split; [exact T|]. split.
  - intros N. rewrite rerender_timer_armed; [reflexivity|].
    unfold debounce_deps_same; simpl.
    destruct (SimulatedApp_eqb (App.selectedApp c) a) eqn:E.
    + destruct N. symmetry. apply SimulatedApp_eqb_eq, E.
    + rewrite andb_false_r. reflexivity.
  - intros E. rewrite rerender_timer_same; [reflexivity|].
    apply debounce_deps_same_refl; try reflexivity. exact E.
Qed.

(** *** The Retry button *)

(** X16: the Retry button of the error banner checks the connection and
    nothing else.  When the check succeeds the banner goes away, but no
    analysis request is sent, the timeout is not armed and the analysis on
    the page stays what it was: the text is analysed again only after the
    next edit. *)
Theorem retry_checks_the_connection_only es w uid :
  let c := session env es (mount env w uid) in
  errorBanner (render (App.isMonitoring c) (App.core c)) <> None ->
  let c1 := handle env ClickRetry c in
  let c2 := handle env (HealthSettles None) c1 in
  App.requests c1 = App.requests c ++ [health env] /\
  sent (App.core c2) = sent (App.core c) /\
  in_flight (App.core c2) = in_flight (App.core c) /\
  App.debounceTimer c2 = App.debounceTimer c /\
  analysis (App.core c2) = analysis (App.core c) /\
  error (App.core c2) = None /\
  errorBanner (render (App.isMonitoring c2) (App.core c2)) = None.
Proof.
  intros c B c1 c2.
  assert (I : single_flight (App.core c)) by apply session_single_flight.
  assert (E1 : c1 = send (health env)
                 (App.with_core (exec testConnection (App.core c)) c)).
  { subst c1. unfold handle, onRetry.
    destruct (errorBanner _); [| destruct B; reflexivity].
    rewrite (step_connect env _ I). reflexivity. }
  assert (I1 : single_flight (App.core c1)) by apply handle_single_flight, I.
  assert (E2 : App.core c2 = exec (testConnection_resume None) (App.core c1)).
  { subst c2. unfold handle. apply (step_connected env None _ I1). }
  subst c2. unfold handle in *.
  cbn [App.core App.debounceTimer App.with_core App.isMonitoring] in *.
  rewrite E2, E1. repeat split.
Qed.

End Page.

Lemma select_picks_the_option_witness :
  nth_error SIMULATED_APPS 1 = Some chat /\
  find_app (app_name chat) = Some chat /\
  App.selectedApp (handle None (SelectApp 1) (mount None browser someone))
    = chat /\
  App.text (handle None (SelectApp 1) (mount None browser someone))
    = App.text (mount None browser someone) /\
  (chat <> App.selectedApp (mount None browser someone) ->
   App.debounceTimer (handle None (SelectApp 1) (mount None browser someone))
     = Some (mkClosure chat true, [], (1 # 2)%Q)) /\
  (chat = App.selectedApp (mount None browser someone) ->
   App.debounceTimer (handle None (SelectApp 1) (mount None browser someone))
     = App.debounceTimer (mount None browser someone)).
Proof.
  split; [reflexivity|].
  apply (select_picks_the_option None 1 chat (mount None browser someone)).
  reflexivity.
Defined.

Lemma retry_checks_the_connection_only_witness :
  errorBanner
    (render true
       (App.core (session None [HealthSettles (Some NetworkError)]
                    (mount None browser someone))))
    <> None /\
  let c := session None [HealthSettles (Some NetworkError)]
             (mount None browser someone) in
  let c1 := handle None ClickRetry c in
  let c2 := handle None (HealthSettles None) c1 in
  App.requests c1 = App.requests c ++ [health None] /\
  sent (App.core c2) = sent (App.core c) /\
  in_flight (App.core c2) = in_flight (App.core c) /\
  App.debounceTimer c2 = App.debounceTimer c /\
  analysis (App.core c2) = analysis (App.core c) /\
  error (App.core c2) = None /\
  errorBanner (render (App.isMonitoring c2) (App.core c2)) = None.
Proof.
  assert (B : errorBanner
    (render true
       (App.core (session None [HealthSettles (Some NetworkError)]
                    (mount None browser someone))))
    <> None) by discriminate.
  split; [exact B|].
  apply (retry_checks_the_connection_only None
           [HealthSettles (Some NetworkError)] browser someone B).
Defined.

(** * The labels and colours of a score *)

Lemma Qltb_true x y : Qltb x y = true -> (x < y)%Q.
Proof.
  unfold Qltb. intros H. apply negb_true_iff in H.
  apply Qnot_le_lt. intros L. apply Qle_bool_iff in L. congruence.
Qed.

Lemma Qltb_false x y : Qltb x y = false -> (y <= x)%Q.
Proof.
  unfold Qltb. intros H. apply negb_false_iff in H.
  apply Qle_bool_iff, H.
Qed.

(** X17: the label and the colour of a score agree at the ends of the
    scale and not in the middle: "Safe" is always green, "Risky" always
    yellow, "High Risk" is red and red is "High Risk"; but "Caution" is
    green for some scores (from 0.2 up to 0.3) and yellow for others. *)
Theorem label_and_colour_of_a_score score :
  (getRegretScoreLabel score = str "Safe" ->
   getRegretScoreColor score = str "text-green-500") /\
  (getRegretScoreLabel score = str "Risky" ->
   getRegretScoreColor score = str "text-yellow-500") /\
  (getRegretScoreLabel score = str "High Risk" <->
   getRegretScoreColor score = str "text-red-500") /\
  (getRegretScoreLabel score = str "Caution" ->
   (score < 3 # 10 -> getRegretScoreColor score = str "text-green-500")%Q /\
   (3 # 10 <= score -> getRegretScoreColor score = str "text-yellow-500")%Q) /\
  (getRegretScoreLabel (1 # 4) = str "Caution" /\
   getRegretScoreLabel (7 # 20) = str "Caution").
Proof.
  unfold getRegretScoreLabel, getRegretScoreColor.
  destruct (Qltb score (2 # 10)) eqn:A; [apply Qltb_true in A | apply Qltb_false in A];
  destruct (Qltb score (3 # 10)) eqn:B; [apply Qltb_true in B | apply Qltb_false in B
                                        | apply Qltb_true in B | apply Qltb_false in B];
  destruct (Qltb score (4 # 10)) eqn:C;
  destruct (Qltb score (6 # 10)) eqn:D;
  try apply Qltb_true in C; try apply Qltb_false in C;
  try apply Qltb_true in D; try apply Qltb_false in D;
  try (exfalso; lra);
  repeat split; try reflexivity; try discriminate; intros; try lra.
Qed.

(** * The keys of the breakdown *)

(** X18: [key.replace('_', ' ')] touches the first underscore only: the key
    keeps its length, a key without underscore is shown as it is, and in a
    key with several the ones after the first stay. *)
Theorem replace_underscore_first_only key :
  List.length (replace_underscore key) = List.length key /\
  (~ In underscore key -> replace_underscore key = key) /\
  (forall a b, key = a ++ underscore :: b -> ~ In underscore a ->
     replace_underscore key = a ++ 0x20%N :: b).
Proof.
  split; [| split].
  - induction key as [| c key IH]; simpl; [reflexivity|].
    destruct (c =? 95)%N; simpl; [reflexivity | rewrite IH; reflexivity].
  - induction key as [| c key IH]; simpl; intros H; [reflexivity|].
    destruct (N.eqb_spec c 95) as [-> | _].
    + destruct H. left; reflexivity.
    + rewrite IH; [reflexivity|]. intros K. apply H. right; exact K.
  - intros a b -> H. induction a as [| c a IH]; simpl.
    + reflexivity.
    + destruct (N.eqb_spec c 95) as [-> | _].
      * destruct H. left; reflexivity.
      * rewrite IH; [reflexivity|]. intros K. apply H. right; exact K.
Qed.
